(** * briefcase: command-line / project-file configuration resolution

    A shallow embedding of [src/briefcase/commands.py] (the class
    [BaseCommand]: its constructor and [parse_config]) and of
    [src/briefcase/__main__.py] ([main]).

    Python dictionaries whose key order is not observed by the code are
    finite maps ([gmap string _]); Python sets are [gset string]; the mapping
    returned by the project-file parser is iterated with [.items()], so it is
    kept as an association list in insertion order.  Exceptions are values of
    the type [exn] and fallible code returns a [result]. *)

From Stdlib Require Import ZArith String Ascii List.
From stdpp Require Import base gmap strings list fin_maps sorting.

Open Scope Z_scope.
Open Scope string_scope.
Open Scope list_scope.
Open Scope stdpp_scope.

(** ** Python values, truthiness *)

#[local] Set Warnings "-register-all".

(** The values that an option default, a command-line value or a value of the
    project file can take. *)
Inductive pyval : Type :=
  | VNone
  | VBool (b : bool)
  | VInt (n : Z)
  | VStr (s : string)
  | VList (l : list pyval).

(** [bool(v)] as Python's [if v] computes it. *)
Definition truthy (v : pyval) : bool :=
  match v with
  | VNone => false
  | VBool b => b
  | VInt n => negb (n =? 0)%Z
  | VStr s => negb (String.eqb s "")
  | VList l => match l with [] => false | _ :: _ => true end
  end.

(** ** Exceptions and results *)

Inductive exn : Type :=
  | BriefcaseConfigError (msg : string)
      (* raised by parse_config *)
  | BriefcaseOtherError (error_code : Z) (text : string)
      (* any other subclass of BriefcaseError, with its error_code and str() *)
  | FileNotFoundError
  | TypeError
  | AttributeError (name : string)
  | OtherException (text : string).

Inductive result (A : Type) : Type :=
  | ok (a : A)
  | raise (e : exn).
Arguments ok {A} a.
Arguments raise {A} e.

Definition bind {A B : Type} (r : result A) (k : A -> result B) : result B :=
  match r with
  | ok a => k a
  | raise e => raise e
  end.

#[global] Instance result_ret : MRet result := fun A a => ok a.
#[global] Instance result_bind : MBind result := fun A B k r => bind r k.

(** ** argparse: actions and namespaces *)

(** An element of [parser._actions]: only [dest] and [default] are read. *)
Record Action : Type := mkAction {
  dest : string;
  default : pyval
}.

(** The [argparse.Namespace] that [parse_args] returns. *)
Abbreviation Namespace := (gmap string pyval).

(** [getattr(namespace, name)]. *)
Definition getattr (ns : Namespace) (name : string) : result pyval :=
  match ns !! name with
  | Some v => ok v
  | None => raise (AttributeError name)
  end.

(** A mapping of option name to value for one application, as the
    project-file parser yields it. *)
Abbreviation RawAppConfig := (gmap string pyval).

(** [d.update(other)]: the entries of [other] replace those of [d]. *)
Definition dict_update (d other : gmap string pyval) : gmap string pyval :=
  other ∪ d.

(** ** inspect.signature *)

(** An entry of [inspect.signature(f).parameters]: [pdefault = None] stands
    for [inspect._empty]. *)
Record SigParameter : Type := mkSigParameter {
  pname : string;
  pdefault : option pyval
}.

(** [param.default == inspect._empty and name not in {'self', 'kwargs'}] *)
Definition is_required_arg (param : SigParameter) : bool :=
  match pdefault param with
  | None => negb (bool_decide (pname param ∈ ({["self"; "kwargs"]} : gset string)))
  | Some _ => false
  end.

(** ** Command classes and command objects *)

(** What a subclass of [BaseCommand] overrides. *)
Record CommandClass : Type := mkCommandClass {
  add_options : list Action -> list Action;
  config_options : gset string
}.

(** [BaseCommand] itself: [add_options] is [pass], [config_options] is
    [set()]. *)
Definition BaseCommand : CommandClass :=
  {| add_options := fun parser => parser; config_options := ∅ |}.

(** The set comprehension of [__init__]:
    [{action.dest for action in parser._actions if action.default}]. *)
Definition extract_default_options (actions : list Action) : gset string :=
  list_to_set (dest <$> filter (fun action => truthy (default action)) actions).

(** The two messages of [parse_config]. *)
Definition quote_arg (arg : string) : string := "'" +:+ arg +:+ "'".

Definition incomplete_message (app_name : string) (missing_args : list string) : string :=
  "Configuration for '" +:+ app_name +:+ "' is incomplete (missing "
    +:+ String.concat ", " (quote_arg <$> missing_args) +:+ ")".

Definition not_found_message : string := "configuration file not found".

(** [except FileNotFoundError: raise BriefcaseConfigError(...)]: any other
    exception passes through. *)
Definition not_found_handler (e : exn) : exn :=
  match e with
  | FileNotFoundError => BriefcaseConfigError not_found_message
  | _ => e
  end.

(** The dictionary comprehension
    [{option: getattr(self.options, option) for option in names if cond(option)}],
    accumulated from left to right. *)
Fixpoint options_comprehension (ns : Namespace) (cond : string -> bool)
    (names : list string) (acc : gmap string pyval) : result (gmap string pyval) :=
  match names with
  | [] => ok acc
  | option :: rest =>
      if cond option then
        v ← getattr ns option;
        options_comprehension ns cond rest (<[option := v]> acc)
      else options_comprehension ns cond rest acc
  end.

Section Command.

(** The record that [AppConfig(...)] constructs (config.py). *)
Variable AppConfig : Type.

(** A command instance: the attributes that [__init__] and [parse_config]
    assign, and the class it was created from. *)
Record Command : Type := mkCommand {
  cmd_class : CommandClass;
  platform : string;
  output_format : string;
  default_options : gset string;
  options : Namespace;
  apps : option (gmap string AppConfig)   (* None: attribute never assigned *)
}.

Definition set_apps (self : Command) (new_apps : gmap string AppConfig) : Command :=
  {| cmd_class := cmd_class self; platform := platform self;
     output_format := output_format self;
     default_options := default_options self; options := options self;
     apps := Some new_apps |}.

(** [parser.parse_args(extra)] of argparse, on the declared actions. *)
Variable parse_args : list Action -> list string -> result Namespace.

(** [BaseCommand.__init__(self, platform, output_format, parser, extra)];
    [parser] is the list [parser._actions]. *)
Definition init (cls : CommandClass) (platform output_format : string)
    (parser : list Action) (extra : list string) : result Command :=
  let parser := add_options cls parser in
  let default_options := extract_default_options parser in
  options ← parse_args parser extra;
  ok {| cmd_class := cls; platform := platform; output_format := output_format;
        default_options := default_options; options := options;
        apps := None |}.

(** The order in which Python iterates over a set of strings.  The language
    leaves it unspecified (it follows the hash of the strings); it
    enumerates each element once ([valid_set_iter] below). *)
Variable set_iter : gset string -> list string.

(** The body of the [for] loop of [parse_config] up to the construction of
    the [AppConfig]: the final state of all the options of one application. *)
Definition resolve_app_config (self : Command) (parsed_config : RawAppConfig)
    : result (gmap string pyval) :=
  app_config ← options_comprehension (options self)
      (fun option => bool_decide (option ∈ default_options self))
      (set_iter (config_options (cmd_class self))) ∅;
  let app_config := dict_update app_config parsed_config in
  explicit ← options_comprehension (options self)
      (fun option => negb (bool_decide (option ∈ default_options self)))
      (set_iter (config_options (cmd_class self))) ∅;
  ok (dict_update app_config explicit).

(** [inspect.signature(AppConfig.__init__).parameters], in order, and the
    call of [AppConfig] with the dictionary [app_config] as its keyword
    arguments (config.py). *)
Variable AppConfig_init_params : list SigParameter.
Variable AppConfig_new : gmap string pyval -> result AppConfig.

Definition required_args : gset string :=
  list_to_set (pname <$> filter (fun param => is_required_arg param) AppConfig_init_params).

(** The [try] ... [except TypeError] around the construction of the
    [AppConfig] of one application. *)
Definition construct_app (app_name : string) (app_config : gmap string pyval)
    : result AppConfig :=
  match AppConfig_new app_config with
  | ok app => ok app
  | raise TypeError =>
      let missing_args := required_args ∖ dom app_config in
      raise (BriefcaseConfigError (incomplete_message app_name (set_iter missing_args)))
  | raise e => raise e
  end.

(** One pass through the body of the
    [for app_name, parsed_config in app_configs.items()] loop, up to the
    value that is stored in [self.apps[app_name]]. *)
Definition resolve_app (self : Command) (item : string * RawAppConfig)
    : result AppConfig :=
  let '(app_name, parsed_config) := item in
  app_config ← resolve_app_config self parsed_config;
  construct_app app_name app_config.

(** The loop itself; [apps] is the dictionary [self.apps], mutated in place:
    when an exception leaves the loop it keeps what was stored so far. *)
Fixpoint resolve_apps (self : Command) (items : list (string * RawAppConfig))
    (apps : gmap string AppConfig) : result unit * gmap string AppConfig :=
  match items with
  | [] => (ok tt, apps)
  | item :: rest =>
      match resolve_app self item with
      | ok app => resolve_apps self rest (<[item.1 := app]> apps)
      | raise e => (raise e, apps)
      end
  end.

(** [config.parse_config(config_file, platform=..., output_format=...)]: the
    project-file parser, on the text of the file.  The items of the mapping it
    returns are in insertion order. *)
Variable config_parse_config :
  string -> string -> string -> result (list (string * RawAppConfig)).

(** [BaseCommand.parse_config(self, filename)].  The file system [fs] gives
    the outcome of [open(path)] for every path: the text of the file, or the
    exception that [open] raises there ([FileNotFoundError] where nothing
    exists, another [OSError] at a directory, below a regular file or without
    permission).  The result is the outcome together with the command object
    as the call leaves it. *)
Definition parse_config (self : Command) (fs : string -> result string)
    (filename : string) : result unit * Command :=
  let '(r, self) :=
    match fs filename with
    | raise e => (raise e, self)
    | ok config_file =>
        match config_parse_config config_file (platform self) (output_format self) with
        | raise e => (raise e, self)
        | ok app_configs =>
            let '(r, apps) := resolve_apps self app_configs ∅ in
            (r, set_apps self apps)
        end
    end in
  match r with
  | ok _ => (ok tt, self)
  | raise e => (raise (not_found_handler e), self)
  end.

(** ** The process boundary: __main__.py *)

(** What [main] can observe and change: the files (the outcome of [open]
    at each path), and the text written so far to the two streams. *)
Record world : Type := mkWorld {
  files : string -> result string;
  stdout : string;
  stderr : string
}.

Definition newline : string := String (ascii_of_nat 10) EmptyString.

(** [print(text, file=sys.stdout)] or [print(text, file=sys.stderr)]. *)
Definition print (text : string) (to_stdout : bool) (w : world) : world :=
  if to_stdout
  then {| files := files w; stdout := stdout w +:+ text +:+ newline; stderr := stderr w |}
  else {| files := files w; stdout := stdout w; stderr := stderr w +:+ text +:+ newline |}.

(** How the process ends: [sys.exit(result)], or an exception that no
    handler of [main] catches. *)
Inductive termination : Type :=
  | Exit (code : Z)
  | Uncaught (e : exn).

(** [cmdline.parse_cmdline(args)] builds the command object (through
    [BaseCommand.__init__]); it may write to the streams. *)
Variable parse_cmdline : list string -> world -> result Command * world.

(** Modelled from the spec: exceptions.py is not among the sources.  The
    [error_code] attribute and the [str()] of a [BriefcaseConfigError], which
    the spec makes a [BriefcaseError] with a non-zero code. *)
Variable config_error_code : Z.
Variable config_error_str : string -> string.

(** Calling the command object runs the body of the command. *)
Variable command_call : Command -> world -> result unit * world.

(** [isinstance(e, BriefcaseError)], with [e.error_code] and [str(e)]. *)
Definition as_BriefcaseError (e : exn) : option (Z * string) :=
  match e with
  | BriefcaseConfigError msg => Some (config_error_code, config_error_str msg)
  | BriefcaseOtherError error_code text => Some (error_code, text)
  | _ => None
  end.

(** The [try] block of [main]. *)
Definition main_body (argv : list string) (w : world) : result unit * world :=
  match parse_cmdline (drop 1 argv) w with
  | (raise e, w) => (raise e, w)
  | (ok command, w) =>
      match parse_config command (files w) "pyproject.toml" with
      | (raise e, _) => (raise e, w)
      | (ok _, command) => command_call command w
      end
  end.

(** [main()], with [sys.argv] and the world it starts in. *)
Definition main (argv : list string) (w : world) : termination * world :=
  match main_body argv w with
  | (ok _, w) => (Exit 0, w)
  | (raise e, w) =>
      match as_BriefcaseError e with
      | Some (error_code, text) =>
          (Exit error_code, print text (error_code =? 0)%Z w)
      | None => (Uncaught e, w)
      end
  end.

End Command.

Arguments mkCommand {AppConfig}.
Arguments init {AppConfig}.
Arguments resolve_app_config {AppConfig}.
Arguments construct_app {AppConfig}.
Arguments resolve_app {AppConfig}.
Arguments resolve_apps {AppConfig}.
Arguments parse_config {AppConfig}.
Arguments main_body {AppConfig}.
Arguments main {AppConfig}.
Arguments cmd_class {AppConfig}.
Arguments platform {AppConfig}.
Arguments output_format {AppConfig}.
Arguments default_options {AppConfig}.
Arguments options {AppConfig}.
Arguments apps {AppConfig}.
Arguments set_apps {AppConfig}.

(** ** The three layers, as the specification words them *)

(** Layer 1: for every config-relevant option classified default-bearing,
    its current command-line value. *)
Definition defaults_layer {AppConfig} (self : Command AppConfig) : gmap string pyval :=
  filter (fun kv => kv.1 ∈ config_options (cmd_class self) ∧ kv.1 ∈ default_options self)
         (options self).

(** Layer 3: for every config-relevant option classified not
    default-bearing, its current command-line value. *)
Definition explicit_layer {AppConfig} (self : Command AppConfig) : gmap string pyval :=
  filter (fun kv => kv.1 ∈ config_options (cmd_class self) ∧ kv.1 ∉ default_options self)
         (options self).

(** Overlaying [upper] on [lower]: a key of [upper] replaces the same key
    of [lower]. *)
Definition overlay (lower upper : gmap string pyval) : gmap string pyval :=
  upper ∪ lower.

Definition three_layer_merge {AppConfig} (self : Command AppConfig)
    (raw : RawAppConfig) : gmap string pyval :=
  overlay (overlay (defaults_layer self) raw) (explicit_layer self).

(** ** Set iteration orders *)

(** What every iteration order of a set satisfies: each element once. *)
Definition valid_set_iter (set_iter : gset string -> list string) : Prop :=
  ∀ X : gset string, set_iter X ≡ₚ elements X.

(** Two iteration orders: ascending and descending in the order of
    [sorted()] on strings. *)
Definition ascending_iter (X : gset string) : list string :=
  merge_sort String.leb (elements X).

Definition descending_iter (X : gset string) : list string :=
  reverse (merge_sort String.leb (elements X)).

(** [l == sorted(l)] *)
Definition is_sorted (l : list string) : bool :=
  bool_decide (l = merge_sort String.leb l).

(** ** A sample instance

    A command class, an [AppConfig] with a closed signature, an argument
    parser and a process environment, on which the properties below are
    exercised. *)

Module Sample.

(** [def __init__(self, name, version, bundle, template=None)] *)
Definition init_params : list SigParameter :=
  [ mkSigParameter "self" None; mkSigParameter "name" None;
    mkSigParameter "version" None; mkSigParameter "bundle" None;
    mkSigParameter "template" (Some VNone) ].

(** Binding keyword arguments to a signature that has no variadic
    parameter: an argument that names no parameter, or a parameter without
    default that gets no argument, is a [TypeError].  The object records the
    bound values. *)
Fixpoint bind_keywords (params : list SigParameter) (kwargs : gmap string pyval)
    : result (gmap string pyval) :=
  match params with
  | [] => ok ∅
  | param :: rest =>
      bound ← bind_keywords rest kwargs;
      match kwargs !! pname param, pdefault param with
      | Some v, _ => ok (<[pname param := v]> bound)
      | None, Some d => ok (<[pname param := d]> bound)
      | None, None => raise TypeError
      end
  end.

Definition AppConfig_new (kwargs : gmap string pyval) : result (gmap string pyval) :=
  let fields := drop 1 init_params in
  if decide (dom kwargs ⊆ list_to_set (pname <$> fields))
  then bind_keywords fields kwargs
  else raise TypeError.

(** A command with two options that augment the application configuration:
    [template], declared with a default, and [bundle], declared without. *)
Definition cls : CommandClass :=
  {| add_options := fun parser =>
       (parser ++ [ mkAction "template" (VStr "cookiecutter");
                    mkAction "bundle" VNone;
                    mkAction "verbosity" (VInt 0) ])%list;
     config_options := {[ "template"; "bundle" ]} |}.

(** An argument parser: every action starts from its default, and the
    command line is a sequence of [--dest value] pairs. *)
Fixpoint apply_extra (extra : list string) (ns : Namespace) : result Namespace :=
  match extra with
  | [] => ok ns
  | String "-" (String "-" dest) :: value :: rest =>
      if decide (dest ∈ dom ns)
      then apply_extra rest (<[dest := VStr value]> ns)
      else raise (OtherException "unrecognized arguments")
  | _ => raise (OtherException "unrecognized arguments")
  end.

Definition parse_args (actions : list Action) (extra : list string) : result Namespace :=
  apply_extra extra (list_to_map ((fun action => (dest action, default action)) <$> actions)).

(** The command that [parse_args] yields for an empty command line. *)
Definition command : Command (gmap string pyval) :=
  {| cmd_class := cls; platform := "macOS"; output_format := "app";
     default_options := {[ "template" ]};
     options := {[ "template" := VStr "cookiecutter"; "bundle" := VNone;
                   "verbosity" := VInt 0 ]};
     apps := None |}.

(** A working directory that holds the project file and nothing else, one
    that holds nothing, and parsers that yield a given mapping for the project
    file.  Opening the directory itself, or a path below the regular file,
    fails with another error than [FileNotFoundError]. *)
Definition fs : string -> result string :=
  fun path =>
    if String.eqb path "pyproject.toml" then ok "[tool.briefcase]"
    else if String.eqb path "." then raise (OtherException "IsADirectoryError")
    else if String.prefix "pyproject.toml/" path
         then raise (OtherException "NotADirectoryError")
    else raise FileNotFoundError.

Definition empty_directory : string -> result string :=
  fun path =>
    if String.eqb path "." then raise (OtherException "IsADirectoryError")
    else raise FileNotFoundError.

Definition parser_yielding (app_configs : list (string * RawAppConfig))
    : string -> string -> string -> result (list (string * RawAppConfig)) :=
  fun _ _ _ => ok app_configs.

Definition complete : RawAppConfig :=
  {[ "name" := VStr "First"; "version" := VStr "1.0" ]}.

Definition incomplete : RawAppConfig :=
  {[ "template" := VStr "custom" ]}.

Definition with_unknown_key : RawAppConfig :=
  {[ "name" := VStr "Third"; "version" := VStr "0.1"; "colour" := VStr "red" ]}.

(** The command line of [main]: without arguments the tool reports its
    usage, an informational error; otherwise the arguments are the options
    of the sample command. *)
Definition parse_cmdline (args : list string) (w : world)
    : result (Command (gmap string pyval)) * world :=
  match args with
  | [] => (raise (BriefcaseOtherError 0 "usage: briefcase <command>"), w)
  | _ :: extra => (init parse_args cls "macOS" "app" [] extra, w)
  end.

Definition command_call (self : Command (gmap string pyval)) (w : world)
    : result unit * world :=
  (ok tt, print "CREATE" true w).

Definition world0 : world := {| files := fs; stdout := ""; stderr := "" |}.

(** A file configuration that sets both config-relevant options. *)
Definition overriding : RawAppConfig :=
  {[ "name" := VStr "Fourth"; "template" := VStr "custom";
     "bundle" := VStr "org.file" ]}.

(** The resolved configurations of [complete], [incomplete] and
    [with_unknown_key], and the object constructed from the first. *)
Definition complete_resolved : gmap string pyval :=
  {[ "name" := VStr "First"; "version" := VStr "1.0";
     "template" := VStr "cookiecutter"; "bundle" := VNone ]}.

Definition incomplete_resolved : gmap string pyval :=
  {[ "template" := VStr "custom"; "bundle" := VNone ]}.

Definition with_unknown_key_resolved : gmap string pyval :=
  {[ "name" := VStr "Third"; "version" := VStr "0.1"; "colour" := VStr "red";
     "template" := VStr "cookiecutter"; "bundle" := VNone ]}.

Definition first_app : gmap string pyval := complete_resolved.

(** Modelled from the spec: exceptions.py is not among the sources.  Sample
    values for the code and the text of a configuration error, the code
    non-zero as the spec requires. *)
Definition config_error_code : Z := 1.
Definition config_error_str (msg : string) : string :=
  "Briefcase configuration error: " +:+ msg.

End Sample.

(** ** The command classes of commands.py *)

(** The five subclasses of [BaseCommand]. *)
Inductive CommandKind : Type :=
  | CreateCommand
  | UpdateCommand
  | BuildCommand
  | RunCommand
  | PublishCommand.

(** The first argument of the [print] of each [__call__]. *)
Definition banner (kind : CommandKind) : string :=
  match kind with
  | CreateCommand => "CREATE:"
  | UpdateCommand => "UPDATE:"
  | BuildCommand => "BUILD:"
  | RunCommand => "RUN:"
  | PublishCommand => "PUBLISH:"
  end.

(** [CreateCommand.verify_tools(self)]: a docstring and nothing else. *)
Definition verify_tools (w : world) : result unit * world := (ok tt, w).

(** [self.description]: commands.py assigns no such attribute, so it is what
    the instance or a subclass provides, a string; [None] when nothing
    provides it. *)
Definition get_description (description : option string) : result string :=
  match description with
  | Some text => ok text
  | None => raise (AttributeError "description")
  end.

(** The [__call__] of the five classes: [print(banner, self.description)]
    writes its two arguments separated by a space; [CreateCommand] calls
    [verify_tools] first. *)
Definition call (kind : CommandKind) (description : option string) (w : world)
    : result unit * world :=
  let '(verified, w) :=
    match kind with
    | CreateCommand => verify_tools w
    | _ => (ok tt, w)
    end in
  match verified with
  | raise e => (raise e, w)
  | ok _ =>
      match get_description description with
      | raise e => (raise e, w)
      | ok text => (ok tt, print (banner kind +:+ " " +:+ text) true w)
      end
  end.

(** ** Further sample inputs *)

Module Edge.

(** A command of the class [BaseCommand] itself. *)
Definition base_command : Command (gmap string pyval) :=
  {| cmd_class := BaseCommand; platform := "macOS"; output_format := "app";
     default_options := {[ "help" ]};
     options := {[ "verbosity" := VInt 2 ]};
     apps := None |}.

(** A class that counts [icon] among its config options without declaring
    it in [add_options], and the command that an empty command line yields
    for it. *)
Definition unbound_cls : CommandClass :=
  {| add_options := add_options Sample.cls;
     config_options := {[ "template"; "icon" ]} |}.

Definition unbound_command : Command (gmap string pyval) :=
  {| cmd_class := unbound_cls; platform := "macOS"; output_format := "app";
     default_options := {[ "template" ]};
     options := options Sample.command;
     apps := None |}.

(** A file parser and a constructor that raise, and command-line parsers
    that yield a given command. *)
Definition parser_raising (e : exn)
    : string -> string -> string -> result (list (string * RawAppConfig)) :=
  fun _ _ _ => raise e.

Definition AppConfig_raising (e : exn) (kwargs : gmap string pyval)
    : result (gmap string pyval) :=
  raise e.

Definition cmdline_yielding (command : Command (gmap string pyval))
    (args : list string) (w : world)
    : result (Command (gmap string pyval)) * world :=
  (ok command, w).

(** The resolved configuration of [Sample.overriding], and the apps mapping
    of a project with the two applications [first] and [fourth]. *)
Definition overriding_resolved : gmap string pyval :=
  {[ "name" := VStr "Fourth"; "template" := VStr "custom"; "bundle" := VNone ]}.

Definition two_apps : gmap string (gmap string pyval) :=
  {[ "first" := Sample.first_app; "fourth" := Sample.first_app ]}.

(** A class that declares one dest twice, the way a flag and its negation
    are declared: [--sign] with the default [False] and [--no-sign] with the
    default [True]; the command that an empty command line yields for it (the
    namespace takes the default of the first declaration), and a file
    configuration that sets the option. *)
Definition paired_cls : CommandClass :=
  {| add_options := fun parser =>
       parser ++ [ mkAction "sign" (VBool false); mkAction "sign" (VBool true) ];
     config_options := {[ "sign" ]} |}.

Definition paired_command : Command (gmap string pyval) :=
  {| cmd_class := paired_cls; platform := "macOS"; output_format := "app";
     default_options := {[ "sign" ]};
     options := {[ "sign" := VBool false ]};
     apps := None |}.

Definition signing : RawAppConfig := {[ "sign" := VStr "adhoc" ]}.

(** The help action that a parser holds from the start, whose default is the
    marker [argparse.SUPPRESS]; an argument parser that, like argparse, gives
    such an action no attribute in the namespace; and the command that the
    sample class yields on a parser that holds the help action. *)
Definition help_action : Action := mkAction "help" (VStr "==SUPPRESS==").

Definition is_suppressed (v : pyval) : bool :=
  match v with
  | VStr s => String.eqb s "==SUPPRESS=="
  | _ => false
  end.

Definition parse_args (actions : list Action) (extra : list string) : result Namespace :=
  Sample.apply_extra extra
    (list_to_map ((fun action => (dest action, default action))
                    <$> filter (fun action => negb (is_suppressed (default action)))
                               actions)).

Definition helped_command : Command (gmap string pyval) :=
  {| cmd_class := Sample.cls; platform := "macOS"; output_format := "app";
     default_options := {[ "help"; "template" ]};
     options := options Sample.command;
     apps := None |}.

End Edge.

(** * Properties

    ** The dictionary comprehension *)

Lemma options_comprehension_lookup ns cond names : ∀ acc m,
  options_comprehension ns cond names acc = ok m →
  ∀ k, (k ∈ names → cond k = true → m !! k = ns !! k)
     ∧ (¬ (k ∈ names ∧ cond k = true) → m !! k = acc !! k).
Proof.
  induction names as [|option rest IH]; intros acc m Hm k; simpl in Hm.
  - injection Hm as <-. split; [|done]. intros Hk. by apply elem_of_nil in Hk.
  - destruct (cond option) eqn:Hc.
    + unfold getattr in Hm. destruct (ns !! option) as [v|] eqn:Hv; [|done].
      simpl in Hm. destruct (IH _ _ Hm k) as [IH1 IH2]. split.
      * intros Hk Hck. destruct (decide (k ∈ rest)) as [Hin|Hnin]; [by apply IH1|].
        apply elem_of_cons in Hk as [->|Hk]; [|done].
        rewrite IH2 by (by intros [? _]). by rewrite lookup_insert_eq.
      * intros Hn. rewrite IH2.
        -- apply lookup_insert_ne. intros <-. apply Hn. split; [by left | done].
        -- intros [Hk Hck]. apply Hn. split; [by right | done].
    + destruct (IH _ _ Hm k) as [IH1 IH2]. split.
      * intros [->|Hk]%elem_of_cons Hck; [congruence | by apply IH1].
      * intros Hn. apply IH2. intros [Hk Hck]. apply Hn. split; [by right | done].
Qed.

Lemma options_comprehension_ok_iff ns cond names : ∀ acc,
  (∃ m, options_comprehension ns cond names acc = ok m) ↔
  (∀ k, k ∈ names → cond k = true → is_Some (ns !! k)).
Proof.
  induction names as [|option rest IH]; intros acc; simpl.
  - split; [|by eauto]. intros _ k Hk. by apply elem_of_nil in Hk.
  - destruct (cond option) eqn:Hc.
    + unfold getattr. destruct (ns !! option) as [v|] eqn:Hv; simpl.
      * rewrite IH. split.
        -- intros H k [->|Hk]%elem_of_cons Hck; [by eauto | by apply H].
        -- intros H k Hk. apply H. by right.
      * split; [by intros [m Hm] |].
        intros H. destruct (H option) as [v Hv']; [by left | done | congruence].
    + rewrite IH. split.
      * intros H k [->|Hk]%elem_of_cons Hck; [congruence | by apply H].
      * intros H k Hk. apply H. by right.
Qed.

(** ** Iteration orders, and the resolution as three layers *)

Section SetIteration.
Context {AppConfig : Type}.
Variable set_iter : gset string → list string.
Hypothesis set_iter_perm : ∀ X : gset string, set_iter X ≡ₚ elements X.

Lemma set_iter_elem (X : gset string) (k : string) : k ∈ set_iter X ↔ k ∈ X.
Proof. by rewrite (set_iter_perm X), elem_of_elements. Qed.

Lemma set_iter_NoDup (X : gset string) : NoDup (set_iter X).
Proof. rewrite (set_iter_perm X). apply NoDup_elements. Qed.

Lemma comprehension_is_filter (ns : Namespace) (cond : string → bool)
    (P : string → Prop) `{!∀ kv : string * pyval, Decision (P kv.1)}
    (X : gset string) (m : gmap string pyval) :
  (∀ k, cond k = true ↔ P k) →
  options_comprehension ns cond (set_iter X) ∅ = ok m →
  m = filter (fun kv => kv.1 ∈ X ∧ P kv.1) ns.
Proof.
  intros HP Hm. apply map_eq. intros k. apply option_eq. intros v.
  rewrite map_lookup_filter_Some. simpl.
  destruct (options_comprehension_lookup _ _ _ _ _ Hm k) as [H1 H2].
  rewrite set_iter_elem, HP in H1, H2. split.
  - intros Hv. destruct (decide (k ∈ X)) as [HX|HX], (cond k) eqn:Hc.
    + apply HP in Hc. by rewrite <- H1.
    + rewrite H2, lookup_empty in Hv; [done|].
      intros [_ HPk%HP]. congruence.
    + rewrite H2, lookup_empty in Hv; [done|]. by intros [? _].
    + rewrite H2, lookup_empty in Hv; [done|]. by intros [? _].
  - intros [Hv [HX HPk]]. by rewrite H1.
Qed.

Lemma resolve_app_config_refines (self : Command AppConfig) (raw : RawAppConfig)
    (m : gmap string pyval) :
  resolve_app_config set_iter self raw = ok m ↔
  config_options (cmd_class self) ⊆ dom (options self) ∧ m = three_layer_merge self raw.
Proof.
  unfold resolve_app_config, three_layer_merge, overlay, dict_update.
  set (names := set_iter (config_options (cmd_class self))).
  set (c1 := fun option => bool_decide (option ∈ default_options self)).
  set (c2 := fun option => negb (bool_decide (option ∈ default_options self))).
  assert (Hc1 : ∀ k, c1 k = true ↔ k ∈ default_options self).
  { intros k. unfold c1. by rewrite bool_decide_eq_true. }
  assert (Hc2 : ∀ k, c2 k = true ↔ k ∉ default_options self).
  { intros k. unfold c2. by rewrite negb_true_iff, bool_decide_eq_false. }
  split.
  - intros Hm.
    destruct (options_comprehension (options self) c1 names ∅) as [d1|] eqn:E1; [|done].
    simpl in Hm.
    destruct (options_comprehension (options self) c2 names ∅) as [d2|] eqn:E2; [|done].
    simpl in Hm. injection Hm as <-.
    split.
    + intros k Hk. apply elem_of_dom.
      destruct (decide (k ∈ default_options self)) as [Hd|Hd].
      * apply (proj1 (options_comprehension_ok_iff _ c1 names ∅)); eauto.
        -- by apply set_iter_elem.
        -- by apply Hc1.
      * apply (proj1 (options_comprehension_ok_iff _ c2 names ∅)); eauto.
        -- by apply set_iter_elem.
        -- by apply Hc2.
    + by rewrite (comprehension_is_filter _ _ _ _ _ Hc1 E1),
                 (comprehension_is_filter _ _ _ _ _ Hc2 E2).
  - intros [Hsub ->].
    destruct (proj2 (options_comprehension_ok_iff (options self) c1 names ∅)) as [d1 E1].
    { intros k Hk _. apply elem_of_dom, Hsub. by apply set_iter_elem. }
    destruct (proj2 (options_comprehension_ok_iff (options self) c2 names ∅)) as [d2 E2].
    { intros k Hk _. apply elem_of_dom, Hsub. by apply set_iter_elem. }
    rewrite E1. simpl. rewrite E2. simpl.
    by rewrite (comprehension_is_filter _ _ _ _ _ Hc1 E1),
               (comprehension_is_filter _ _ _ _ _ Hc2 E2).
Qed.

End SetIteration.

(** ** The loop over the applications *)

Section Loop.
Context {AppConfig : Type}.
Variable set_iter : gset string → list string.
Variable AppConfig_init_params : list SigParameter.
Variable AppConfig_new : gmap string pyval → result AppConfig.
Variable config_parse_config :
  string → string → string → result (list (string * RawAppConfig)).

Local Abbreviation resolve_app := (resolve_app set_iter AppConfig_init_params AppConfig_new).
Local Abbreviation resolve_apps := (resolve_apps set_iter AppConfig_init_params AppConfig_new).
Local Abbreviation parse_config :=
  (parse_config set_iter AppConfig_init_params AppConfig_new config_parse_config).

(** Each item of [items] is resolved and constructed into the
    corresponding element of [built]. *)
Local Abbreviation all_built self items built :=
  (Forall2 (fun item app => resolve_app self item = ok app) items built).

Lemma stored_lookup_fresh (names : list string) (built : list AppConfig) (k : string) :
  k ∉ names → (list_to_map (zip names built) : gmap string AppConfig) !! k = None.
Proof.
  intros Hk. apply not_elem_of_list_to_map_1. intros Hin. apply Hk.
  apply list_elem_of_fmap in Hin as [[k' a] [-> Hin]].
  by apply elem_of_zip_l in Hin.
Qed.

Lemma stored_insert_commute (names : list string) (built : list AppConfig)
    (k : string) (app : AppConfig) (apps : gmap string AppConfig) :
  k ∉ names →
  list_to_map (zip names built) ∪ <[k := app]> apps
  = list_to_map (zip (k :: names) (app :: built)) ∪ apps.
Proof.
  intros Hk. simpl. rewrite <- insert_union_l.
  symmetry. apply insert_union_r. by apply stored_lookup_fresh.
Qed.

Lemma resolve_apps_all_ok (self : Command AppConfig) items built : ∀ apps,
  NoDup items.*1 →
  all_built self items built →
  resolve_apps self items apps = (ok tt, list_to_map (zip items.*1 built) ∪ apps).
Proof.
  intros apps Hnd Hall. revert apps Hnd.
  induction Hall as [|item app items built Hitem Hall IH]; intros apps Hnd; simpl.
  - by rewrite (left_id_L ∅ (∪)).
  - rewrite fmap_cons in Hnd. apply NoDup_cons in Hnd as [Hfresh Hnd].
    rewrite Hitem, (IH _ Hnd). f_equal.
    by rewrite stored_insert_commute.
Qed.

Lemma resolve_apps_first_failure (self : Command AppConfig) pre built item post e : ∀ apps,
  NoDup pre.*1 →
  all_built self pre built →
  resolve_app self item = raise e →
  resolve_apps self (pre ++ item :: post) apps
  = (raise e, list_to_map (zip pre.*1 built) ∪ apps).
Proof.
  intros apps Hnd Hall Hfail. revert apps Hnd.
  induction Hall as [|item' app pre built Hitem Hall IH]; intros apps Hnd; simpl.
  - by rewrite Hfail, (left_id_L ∅ (∪)).
  - rewrite fmap_cons in Hnd. apply NoDup_cons in Hnd as [Hfresh Hnd].
    rewrite Hitem, (IH _ Hnd). f_equal.
    by rewrite stored_insert_commute.
Qed.

Lemma resolve_apps_ok_inv (self : Command AppConfig) items : ∀ apps apps',
  resolve_apps self items apps = (ok tt, apps') →
  ∃ built, all_built self items built.
Proof.
  induction items as [|item items IH]; intros apps apps' Hrun; simpl in Hrun.
  - exists []. constructor.
  - destruct (resolve_app self item) as [app|e] eqn:Hitem; [|done].
    destruct (IH _ _ Hrun) as [built Hbuilt].
    exists (app :: built). by constructor.
Qed.

Lemma resolve_apps_outcome (self : Command AppConfig) items :
  (∃ built, all_built self items built)
  ∨ (∃ pre built item post e, items = pre ++ item :: post ∧
       all_built self pre built ∧ resolve_app self item = raise e).
Proof.
  induction items as [|item items IH].
  - left. exists []. constructor.
  - destruct (resolve_app self item) as [app|e] eqn:Hitem.
    + destruct IH as [[built Hb]|(pre & built & item' & post & e & -> & Hb & He)].
      * left. exists (app :: built). by constructor.
      * right. exists (item :: pre), (app :: built), item', post, e.
        split; [done|]. split; [by constructor | done].
    + right. exists [], [], item, items, e. split; [done|]. split; [constructor | done].
Qed.

Lemma parse_config_run (self : Command AppConfig) fs filename config_file app_configs :
  fs filename = ok config_file →
  config_parse_config config_file (platform self) (output_format self) = ok app_configs →
  parse_config self fs filename =
    let '(r, apps) := resolve_apps self app_configs ∅ in
    (match r with ok _ => ok tt | raise e => raise (not_found_handler e) end,
     set_apps self apps).
Proof.
  intros Hfile Hparse. unfold parse_config. rewrite Hfile, Hparse.
  by destruct (resolve_apps self app_configs ∅) as [[[]|e] apps].
Qed.

End Loop.

(** ** The two set comprehensions *)

Lemma ascending_iter_valid : valid_set_iter ascending_iter.
Proof. intros X. unfold ascending_iter. apply merge_sort_Permutation. Qed.

Lemma descending_iter_valid : valid_set_iter descending_iter.
Proof.
  intros X. unfold descending_iter.
  by rewrite reverse_Permutation, merge_sort_Permutation.
Qed.

Lemma elements_valid : valid_set_iter elements.
Proof. by intros X. Qed.

Lemma extract_default_options_spec (actions : list Action) (name : string) :
  name ∈ extract_default_options actions ↔
  ∃ action, action ∈ actions ∧ dest action = name ∧ truthy (default action) = true.
Proof.
  unfold extract_default_options.
  rewrite elem_of_list_to_set, list_elem_of_fmap. split.
  - intros (action & -> & [Ht Hin]%list_elem_of_filter).
    exists action. split; [done|]. split; [done|]. by apply Is_true_true.
  - intros (action & Hin & <- & Ht). exists action. split; [done|].
    apply list_elem_of_filter. split; [|done]. by apply Is_true_true.
Qed.

Lemma required_args_spec (params : list SigParameter) (name : string) :
  name ∈ required_args params ↔
  ∃ param, param ∈ params ∧ pname param = name ∧ pdefault param = None
           ∧ name ≠ "self" ∧ name ≠ "kwargs".
Proof.
  unfold required_args.
  rewrite elem_of_list_to_set, list_elem_of_fmap. split.
  - intros (param & -> & [Hr Hin]%list_elem_of_filter).
    exists param. split; [done|]. split; [done|].
    unfold is_required_arg in Hr. destruct (pdefault param); [done|].
    split; [done|].
    apply Is_true_true, negb_true_iff, bool_decide_eq_false in Hr.
    rewrite elem_of_union, !elem_of_singleton in Hr.
    split; intros Heq; apply Hr; [by left | by right].
  - intros (param & Hin & <- & Hd & Hs & Hk). exists param. split; [done|].
    apply list_elem_of_filter. split; [|done].
    unfold is_required_arg. rewrite Hd.
    apply Is_true_true, negb_true_iff, bool_decide_eq_false.
    rewrite elem_of_union, !elem_of_singleton. by intros [?|?].
Qed.

(** ** Precedence of the layers *)

Section Layers.
Context {AppConfig : Type}.
Implicit Types (self : Command AppConfig) (raw : RawAppConfig).

Lemma explicit_layer_lookup self (name : string) :
  explicit_layer self !! name =
    if decide (name ∈ config_options (cmd_class self) ∧ name ∉ default_options self)
    then options self !! name else None.
Proof.
  unfold explicit_layer. apply option_eq. intros v.
  rewrite map_lookup_filter_Some. simpl.
  case_decide as Hlayer; [tauto|]. split; [tauto | done].
Qed.

Lemma defaults_layer_lookup self (name : string) :
  defaults_layer self !! name =
    if decide (name ∈ config_options (cmd_class self) ∧ name ∈ default_options self)
    then options self !! name else None.
Proof.
  unfold defaults_layer. apply option_eq. intros v.
  rewrite map_lookup_filter_Some. simpl.
  case_decide as Hlayer; [tauto|]. split; [tauto | done].
Qed.

Lemma three_layer_merge_lookup self raw (name : string) :
  three_layer_merge self raw !! name =
    match explicit_layer self !! name with
    | Some v => Some v
    | None => match raw !! name with
              | Some v => Some v
              | None => defaults_layer self !! name
              end
    end.
Proof.
  unfold three_layer_merge, overlay. rewrite !lookup_union.
  by destruct (explicit_layer self !! name), (raw !! name), (defaults_layer self !! name).
Qed.

End Layers.

Section Resolution.
Context {AppConfig : Type}.
Variable set_iter : gset string → list string.
Hypothesis set_iter_perm : valid_set_iter set_iter.
Implicit Types (self : Command AppConfig) (raw : RawAppConfig).

(** C1: the resolved configuration of an application is the overlay of three
    layers in this order: the command-line values of the config-relevant
    options classified default-bearing, then every key of the file
    configuration, then the command-line values of the config-relevant options
    classified not default-bearing.  A file value therefore wins over a
    default, and the command-line value of an option that is not
    default-bearing wins over the file value.  The resolution succeeds
    exactly when the command line binds every config-relevant option. *)
Theorem resolve_app_config_three_overlays self raw :
  (∀ m, resolve_app_config set_iter self raw = ok m ↔
        config_options (cmd_class self) ⊆ dom (options self)
        ∧ m = overlay (overlay (defaults_layer self) raw) (explicit_layer self))
  ∧ (∀ name value,
        name ∈ config_options (cmd_class self) → name ∈ default_options self →
        raw !! name = Some value →
        overlay (overlay (defaults_layer self) raw) (explicit_layer self) !! name
        = Some value)
  ∧ (∀ name value,
        name ∈ config_options (cmd_class self) → name ∈ default_options self →
        raw !! name = None → options self !! name = Some value →
        overlay (overlay (defaults_layer self) raw) (explicit_layer self) !! name
        = Some value)
  ∧ (∀ name value,
        name ∈ config_options (cmd_class self) → name ∉ default_options self →
        options self !! name = Some value →
        overlay (overlay (defaults_layer self) raw) (explicit_layer self) !! name
        = Some value).
Proof.
  split; [intros m; by apply resolve_app_config_refines|].
  fold (three_layer_merge self raw).
  split; [|split]; intros name value Hc Hd.
  - intros Hraw. rewrite three_layer_merge_lookup, explicit_layer_lookup, Hraw.
    rewrite decide_False; [done | by intros [_ ?]].
  - intros Hraw Hopt.
    rewrite three_layer_merge_lookup, explicit_layer_lookup, Hraw, defaults_layer_lookup.
    rewrite decide_False by (by intros [_ ?]). by rewrite decide_True.
  - intros Hopt. rewrite three_layer_merge_lookup, explicit_layer_lookup.
    by rewrite decide_True, Hopt.
Qed.

(** C4: the resolved configuration has no key besides the config-relevant
    option names and the keys of the application's file configuration; every
    key of the file configuration is in it, and one that is not a
    config-relevant option keeps the value of the file. *)
Theorem resolved_keys_from_options_or_file self raw m :
  resolve_app_config set_iter self raw = ok m →
  dom m ⊆ config_options (cmd_class self) ∪ dom raw
  ∧ dom raw ⊆ dom m
  ∧ (∀ key, key ∈ dom raw → key ∉ config_options (cmd_class self) →
            m !! key = raw !! key).
Proof.
  intros [Hsub ->]%(resolve_app_config_refines set_iter set_iter_perm).
  split; [|split].
  - intros key [v Hv]%elem_of_dom.
    rewrite three_layer_merge_lookup, explicit_layer_lookup, defaults_layer_lookup in Hv.
    apply elem_of_union.
    destruct (decide (key ∈ config_options (cmd_class self))) as [Hc|Hc]; [by left|].
    right. apply elem_of_dom.
    rewrite !decide_False in Hv by (by intros [? _]).
    destruct (raw !! key); [by eauto | done].
  - intros key [v Hv]%elem_of_dom. apply elem_of_dom.
    rewrite three_layer_merge_lookup, Hv.
    destruct (explicit_layer self !! key); by eauto.
  - intros key [v Hv]%elem_of_dom Hc.
    rewrite three_layer_merge_lookup, explicit_layer_lookup, Hv.
    by rewrite decide_False by (by intros [? _]).
Qed.

End Resolution.

(** ** Classification of the options *)

Section Classification.
Context {AppConfig : Type}.
Variable parse_args : list Action → list string → result Namespace.
Variable set_iter : gset string → list string.
Hypothesis set_iter_perm : valid_set_iter set_iter.

Lemma init_ok_inv cls platform output_format parser extra (self : Command AppConfig) :
  init parse_args cls platform output_format parser extra = ok self →
  cmd_class self = cls
  ∧ default_options self = extract_default_options (add_options cls parser)
  ∧ parse_args (add_options cls parser) extra = ok (options self).
Proof.
  unfold init. destruct (parse_args _ extra) as [ns|e]; [|done].
  simpl. by intros [= <-].
Qed.

(** C2 (a name is classified by any of its declarations): the constructor
    classifies an option name as default-bearing exactly when some declaration
    of that name has a truthy default.  A name all of whose declarations have
    an empty, zero, false or None default is not default-bearing, and when it
    is config-relevant its command-line value is what the resolved
    configuration holds, whatever the file says.  The classification is a
    function of the declarations that add_options leaves in the parser: it is
    the same for every command line. *)
Theorem default_bearing_iff_some_truthy_declaration
    cls platform output_format parser extra (self : Command AppConfig) :
  init parse_args cls platform output_format parser extra = ok self →
  let declared := add_options cls parser in
  default_options self = extract_default_options declared
  ∧ (∀ name, name ∈ default_options self ↔
       ∃ action, action ∈ declared ∧ dest action = name
                 ∧ truthy (default action) = true)
  ∧ (∀ name,
       (∀ action, action ∈ declared → dest action = name →
                  truthy (default action) = false) →
       name ∉ default_options self)
  ∧ (truthy VNone = false ∧ truthy (VBool false) = false ∧ truthy (VInt 0) = false
     ∧ truthy (VStr "") = false ∧ truthy (VList []) = false)
  ∧ (∀ name raw m,
       (∀ action, action ∈ declared → dest action = name →
                  truthy (default action) = false) →
       name ∈ config_options cls →
       resolve_app_config set_iter self raw = ok m →
       m !! name = options self !! name)
  ∧ (∀ extra' (self' : Command AppConfig),
       init parse_args cls platform output_format parser extra' = ok self' →
       default_options self' = default_options self).
Proof.
  intros (Hcls & Hdef & Hargs)%init_ok_inv declared.
  assert (Hiff : ∀ name, name ∈ default_options self ↔
            ∃ action, action ∈ declared ∧ dest action = name
                      ∧ truthy (default action) = true).
  { intros name. rewrite Hdef. apply extract_default_options_spec. }
  assert (Hfalsy : ∀ name,
            (∀ action, action ∈ declared → dest action = name →
                       truthy (default action) = false) →
            name ∉ default_options self).
  { intros name Hall (action & Hin & Hdest & Ht)%Hiff.
    rewrite (Hall action Hin Hdest) in Ht. discriminate Ht. }
  split; [done|]. split; [done|]. split; [done|]. split; [done|]. split.
  - intros name raw m Hall Hconf Hres.
    pose proof (Hfalsy name Hall) as Hnd.
    apply (resolve_app_config_refines set_iter set_iter_perm) in Hres as [Hsub ->].
    rewrite three_layer_merge_lookup, explicit_layer_lookup, Hcls.
    rewrite decide_True by done.
    assert (is_Some (options self !! name)) as [v ->]; [|done].
    apply elem_of_dom, Hsub. by rewrite Hcls.
  - intros extra' self' (_ & Hdef' & _)%init_ok_inv. by rewrite Hdef, Hdef'.
Qed.

End Classification.

(** ** Outcomes of parse_config *)

Section ParseConfig.
Context {AppConfig : Type}.
Variable set_iter : gset string → list string.
Hypothesis set_iter_perm : valid_set_iter set_iter.
Variable AppConfig_init_params : list SigParameter.
Variable AppConfig_new : gmap string pyval → result AppConfig.
Variable config_parse_config :
  string → string → string → result (list (string * RawAppConfig)).
Implicit Types (self : Command AppConfig) (raw : RawAppConfig).

Local Abbreviation resolve_app_config := (resolve_app_config (AppConfig := AppConfig) set_iter).
Local Abbreviation required_args := (required_args AppConfig_init_params).
Local Abbreviation resolve_app := (resolve_app set_iter AppConfig_init_params AppConfig_new).
Local Abbreviation resolve_apps := (resolve_apps set_iter AppConfig_init_params AppConfig_new).
Local Abbreviation parse_config :=
  (parse_config set_iter AppConfig_init_params AppConfig_new config_parse_config).
Local Abbreviation all_built self items built :=
  (Forall2 (fun item app => resolve_app self item = ok app) items built).

Lemma resolve_app_TypeError self app_name raw app_config :
  resolve_app_config self raw = ok app_config →
  AppConfig_new app_config = raise TypeError →
  resolve_app self (app_name, raw)
  = raise (BriefcaseConfigError
             (incomplete_message app_name (set_iter (required_args ∖ dom app_config)))).
Proof.
  intros Hres Hnew. unfold resolve_app, construct_app.
  rewrite Hres. simpl. by rewrite Hnew.
Qed.

Lemma parse_config_first_failure self fs filename config_file pre built item post e :
  fs filename = ok config_file →
  config_parse_config config_file (platform self) (output_format self)
    = ok (pre ++ item :: post) →
  NoDup pre.*1 →
  all_built self pre built →
  resolve_app self item = raise e →
  parse_config self fs filename
  = (raise (not_found_handler e), set_apps self (list_to_map (zip pre.*1 built))).
Proof.
  intros Hfile Hparse Hnd Hpre Hfail.
  rewrite (parse_config_run _ _ _ _ _ _ _ _ _ Hfile Hparse).
  rewrite (resolve_apps_first_failure _ _ _ _ _ _ _ _ e ∅ Hnd Hpre Hfail).
  by rewrite (right_id_L ∅ (∪)).
Qed.

Lemma parse_config_all_built self fs filename config_file app_configs built :
  fs filename = ok config_file →
  config_parse_config config_file (platform self) (output_format self) = ok app_configs →
  NoDup app_configs.*1 →
  all_built self app_configs built →
  parse_config self fs filename
  = (ok tt, set_apps self (list_to_map (zip app_configs.*1 built))).
Proof.
  intros Hfile Hparse Hnd Hall.
  rewrite (parse_config_run _ _ _ _ _ _ _ _ _ Hfile Hparse).
  rewrite (resolve_apps_all_ok _ _ _ _ _ _ ∅ Hnd Hall).
  by rewrite (right_id_L ∅ (∪)).
Qed.

Lemma stored_lookup (names : list string) (built : list AppConfig) i name app :
  NoDup names → length names = length built →
  names !! i = Some name → built !! i = Some app →
  (list_to_map (zip names built) : gmap string AppConfig) !! name = Some app.
Proof.
  intros Hnd Hlen Hname Happ. apply elem_of_list_to_map_1.
  - rewrite fst_zip; [done | lia].
  - apply list_elem_of_lookup. exists i. by apply lookup_zip_Some.
Qed.

Lemma stored_dom (names : list string) (built : list AppConfig) :
  length names = length built →
  dom (list_to_map (zip names built) : gmap string AppConfig) = list_to_set names.
Proof. intros Hlen. rewrite dom_list_to_map_L, fst_zip; [done | lia]. Qed.

Lemma stored_size (names : list string) (built : list AppConfig) :
  NoDup names → length names = length built →
  size (list_to_map (zip names built) : gmap string AppConfig) = length names.
Proof.
  intros Hnd Hlen. rewrite map_size_list_to_map.
  - rewrite length_zip. lia.
  - rewrite fst_zip; [done | lia].
Qed.

Lemma parse_config_open_raises self (fs : string → result string) filename e :
  fs filename = raise e →
  parse_config self fs filename = (raise (not_found_handler e), self).
Proof.
  intros Hopen. unfold parse_config. by rewrite Hopen.
Qed.

(** C5: when no file exists at the path, so that open raises
    FileNotFoundError, parse_config raises the configuration error
    "configuration file not found" and leaves the command object as it was:
    the project-file parser and the AppConfig constructor play no part, and
    the apps attribute is not assigned. *)
Theorem parse_config_file_not_found self (fs : string → result string) filename :
  fs filename = raise FileNotFoundError →
  parse_config self fs filename
  = (raise (BriefcaseConfigError "configuration file not found"), self)
  ∧ apps (parse_config self fs filename).2 = apps self.
Proof.
  intros Hfile. unfold parse_config. by rewrite Hfile.
Qed.

(** C8: when the project file exists and every application of the parser's
    output resolves and constructs, parse_config returns, and the apps
    attribute of the command it leaves is a mapping that holds one AppConfig
    for each application name of the output and nothing else: the one built
    from that application's resolved configuration.  parse_config returns
    only in that case. *)
Theorem every_application_gets_one_AppConfig
    self (fs : string → result string) filename config_file app_configs :
  fs filename = ok config_file →
  config_parse_config config_file (platform self) (output_format self) = ok app_configs →
  NoDup app_configs.*1 →
  ((parse_config self fs filename).1 = ok tt ↔ ∃ built, all_built self app_configs built)
  ∧ ∀ built, all_built self app_configs built →
      ∃ stored : gmap string AppConfig,
        parse_config self fs filename = (ok tt, set_apps self stored)
        ∧ apps (parse_config self fs filename).2 = Some stored
        ∧ dom stored = list_to_set app_configs.*1
        ∧ size stored = length app_configs
        ∧ ∀ i item, app_configs !! i = Some item →
            ∃ app, built !! i = Some app
                   ∧ resolve_app self item = ok app
                   ∧ stored !! item.1 = Some app.
Proof.
  intros Hfile Hparse Hnd. split.
  - split.
    + rewrite (parse_config_run _ _ _ _ _ _ _ _ _ Hfile Hparse).
      destruct (resolve_apps self app_configs ∅) as [[[]|e] stored] eqn:Hrun; [|done].
      intros _. by eapply resolve_apps_ok_inv.
    + intros [built Hall].
      by rewrite (parse_config_all_built _ _ _ _ _ _ Hfile Hparse Hnd Hall).
  - intros built Hall.
    pose proof (Forall2_length _ _ _ Hall) as Hlen.
    exists (list_to_map (zip app_configs.*1 built)).
    split; [by apply (parse_config_all_built _ _ _ config_file)|].
    split; [by rewrite (parse_config_all_built _ _ _ _ _ _ Hfile Hparse Hnd Hall)|].
    split; [apply stored_dom; by rewrite length_fmap|].
    split; [rewrite stored_size, ?length_fmap; by rewrite ?length_fmap|].
    intros i item Hitem.
    destruct (Forall2_lookup_l _ _ _ _ _ Hall Hitem) as (app & Happ & Hres).
    exists app. split; [done|]. split; [done|].
    apply (stored_lookup _ _ i); [done | by rewrite length_fmap | | done].
    by rewrite list_lookup_fmap, Hitem.
Qed.

(** C9: when the applications before the n-th one construct and the n-th one
    fails, parse_config raises, and the apps mapping of the command is left
    holding the AppConfig of each application iterated before the failing
    one, and nothing else. *)
Theorem failure_leaves_earlier_apps_stored
    self (fs : string → result string) filename config_file pre built item post e :
  fs filename = ok config_file →
  config_parse_config config_file (platform self) (output_format self)
    = ok (pre ++ item :: post) →
  NoDup (pre ++ item :: post).*1 →
  all_built self pre built →
  resolve_app self item = raise e →
  ∃ stored : gmap string AppConfig,
    parse_config self fs filename = (raise (not_found_handler e), set_apps self stored)
    ∧ apps (parse_config self fs filename).2 = Some stored
    ∧ dom stored = list_to_set pre.*1
    ∧ (∀ i earlier, pre !! i = Some earlier →
         ∃ app, built !! i = Some app ∧ stored !! earlier.1 = Some app)
    ∧ stored !! item.1 = None
    ∧ (∀ later, later ∈ post → stored !! later.1 = None).
Proof.
  intros Hfile Hparse Hnd Hpre Hfail.
  rewrite fmap_app, fmap_cons in Hnd.
  apply NoDup_app in Hnd as (Hnd_pre & Hdisj & Hnd_post).
  pose proof (Forall2_length _ _ _ Hpre) as Hlen.
  exists (list_to_map (zip pre.*1 built)).
  rewrite (parse_config_first_failure _ _ _ _ _ _ _ _ _ Hfile Hparse Hnd_pre Hpre Hfail).
  split; [done|]. split; [done|].
  split; [apply stored_dom; by rewrite length_fmap|].
  split; [|split].
  - intros i earlier Hearlier.
    destruct (Forall2_lookup_l _ _ _ _ _ Hpre Hearlier) as (app & Happ & _).
    exists app. split; [done|].
    apply (stored_lookup _ _ i); [done | by rewrite length_fmap | | done].
    by rewrite list_lookup_fmap, Hearlier.
  - apply stored_lookup_fresh. intros Hin. apply (Hdisj _ Hin). by left.
  - intros later Hlater. apply stored_lookup_fresh. intros Hin.
    apply (Hdisj _ Hin). right. by apply list_elem_of_fmap_2.
Qed.

End ParseConfig.

(** ** Validation errors *)

Section Validation.
Context {AppConfig : Type}.
Variable set_iter : gset string → list string.
Hypothesis set_iter_perm : valid_set_iter set_iter.
Variable AppConfig_init_params : list SigParameter.
Variable AppConfig_new : gmap string pyval → result AppConfig.
Variable config_parse_config :
  string → string → string → result (list (string * RawAppConfig)).
Implicit Types (self : Command AppConfig) (raw : RawAppConfig).

Local Abbreviation resolve_app_config := (resolve_app_config (AppConfig := AppConfig) set_iter).
Local Abbreviation required_args := (required_args AppConfig_init_params).
Local Abbreviation resolve_app := (resolve_app set_iter AppConfig_init_params AppConfig_new).
Local Abbreviation resolve_apps := (resolve_apps set_iter AppConfig_init_params AppConfig_new).
Local Abbreviation parse_config :=
  (parse_config set_iter AppConfig_init_params AppConfig_new config_parse_config).
Local Abbreviation all_built self items built :=
  (Forall2 (fun item app => resolve_app self item = ok app) items built).

(** C3 (amended): when the construction of an application's AppConfig raises
    a TypeError, parse_config raises a configuration error whose message names
    the application and lists, each one once and quoted, every parameter of
    the constructor that has no default, is not named self or kwargs, and is
    absent from the merged mapping.  The names come in the iteration order of
    a set, which need not be the sorted order. *)
Theorem incomplete_error_lists_every_missing_field
    self (fs : string → result string) filename config_file
    pre built app_name raw post app_config :
  fs filename = ok config_file →
  config_parse_config config_file (platform self) (output_format self)
    = ok (pre ++ (app_name, raw) :: post) →
  NoDup pre.*1 →
  all_built self pre built →
  resolve_app_config self raw = ok app_config →
  AppConfig_new app_config = raise TypeError →
  ∃ missing : list string,
    (parse_config self fs filename).1
    = raise (BriefcaseConfigError
               ("Configuration for '" +:+ app_name +:+ "' is incomplete (missing "
                +:+ String.concat ", " (quote_arg <$> missing) +:+ ")"))
    ∧ NoDup missing
    ∧ ∀ name, name ∈ missing ↔
        (∃ param, param ∈ AppConfig_init_params ∧ pname param = name
                  ∧ pdefault param = None ∧ name ≠ "self" ∧ name ≠ "kwargs")
        ∧ app_config !! name = None.
Proof.
  intros Hfile Hparse Hnd Hpre Hres Hnew.
  exists (set_iter (required_args ∖ dom app_config)).
  pose proof (resolve_app_TypeError set_iter AppConfig_init_params AppConfig_new
                _ app_name _ _ Hres Hnew) as Hfail.
  erewrite parse_config_first_failure by eassumption.
  split; [done|]. split; [by apply set_iter_NoDup|].
  intros name.
  rewrite (set_iter_elem _ set_iter_perm), elem_of_difference, required_args_spec.
  by rewrite not_elem_of_dom.
Qed.

Lemma set_iter_empty : set_iter ∅ = [].
Proof.
  apply Permutation_nil_r. by rewrite (set_iter_perm ∅), elements_empty.
Qed.

(** C10: whenever the construction of an application's AppConfig raises a
    TypeError, whatever caused it, parse_config raises the configuration
    error that reports the application's configuration as incomplete; when
    every required parameter is a key of the merged mapping, the list of
    missing fields in the message is empty. *)
Theorem any_TypeError_reported_as_incomplete
    self (fs : string → result string) filename config_file
    pre built app_name raw post app_config :
  fs filename = ok config_file →
  config_parse_config config_file (platform self) (output_format self)
    = ok (pre ++ (app_name, raw) :: post) →
  NoDup pre.*1 →
  all_built self pre built →
  resolve_app_config self raw = ok app_config →
  AppConfig_new app_config = raise TypeError →
  (parse_config self fs filename).1
  = raise (BriefcaseConfigError
             (incomplete_message app_name (set_iter (required_args ∖ dom app_config))))
  ∧ (required_args ⊆ dom app_config →
     (parse_config self fs filename).1
     = raise (BriefcaseConfigError
                ("Configuration for '" +:+ app_name +:+ "' is incomplete (missing )"))).
Proof.
  intros Hfile Hparse Hnd Hpre Hres Hnew.
  pose proof (resolve_app_TypeError set_iter AppConfig_init_params AppConfig_new
                _ app_name _ _ Hres Hnew) as Hfail.
  erewrite parse_config_first_failure by eassumption.
  split; [done|]. intros Hsub. simpl.
  assert (required_args ∖ dom app_config = ∅) as ->.
  { apply set_eq. intros name. rewrite elem_of_difference.
    split; [intros [Hin Hout]; by apply Hsub in Hin | by intros ?%not_elem_of_empty]. }
  by rewrite set_iter_empty.
Qed.

End Validation.

(** ** The process boundary *)

Section Lifecycle.
Context {AppConfig : Type}.
Variable set_iter : gset string → list string.
Variable AppConfig_init_params : list SigParameter.
Variable AppConfig_new : gmap string pyval → result AppConfig.
Variable config_parse_config :
  string → string → string → result (list (string * RawAppConfig)).
Variable parse_cmdline : list string → world → result (Command AppConfig) * world.
Variable config_error_code : Z.
Variable config_error_str : string → string.
Implicit Types (self command : Command AppConfig) (raw : RawAppConfig) (w : world).

Local Abbreviation resolve_app_config := (resolve_app_config (AppConfig := AppConfig) set_iter).
Local Abbreviation required_args := (required_args AppConfig_init_params).
Local Abbreviation resolve_app := (resolve_app set_iter AppConfig_init_params AppConfig_new).
Local Abbreviation resolve_apps := (resolve_apps set_iter AppConfig_init_params AppConfig_new).
Local Abbreviation parse_config :=
  (parse_config set_iter AppConfig_init_params AppConfig_new config_parse_config).
Local Abbreviation all_built self items built :=
  (Forall2 (fun item app => resolve_app self item = ok app) items built).
Local Abbreviation main_body :=
  (main_body set_iter AppConfig_init_params AppConfig_new config_parse_config
     parse_cmdline).
Local Abbreviation main :=
  (main set_iter AppConfig_init_params AppConfig_new config_parse_config
     parse_cmdline config_error_code config_error_str).

Lemma main_body_config_raises command_call argv w w1 command e self' :
  parse_cmdline (drop 1 argv) w = (ok command, w1) →
  parse_config command (files w1) "pyproject.toml" = (raise e, self') →
  main_body command_call argv w = (raise e, w1).
Proof.
  intros Hcmd Hcfg. unfold main_body. by rewrite Hcmd, Hcfg.
Qed.

(** C6: when an application fails validation, parse_config raises that
    application's error at once.  The outcome is the same whatever follows the
    failing application in the parser's output, no later application has an
    entry in the apps mapping, and main goes to the error report without
    calling the command: its result does not depend on the command body. *)
Theorem first_validation_failure_aborts
    argv w w1 command config_file pre built app_name raw post app_config :
  parse_cmdline (drop 1 argv) w = (ok command, w1) →
  files w1 "pyproject.toml" = ok config_file →
  config_parse_config config_file (platform command) (output_format command)
    = ok (pre ++ (app_name, raw) :: post) →
  NoDup (pre ++ (app_name, raw) :: post).*1 →
  all_built command pre built →
  resolve_app_config command raw = ok app_config →
  AppConfig_new app_config = raise TypeError →
  let msg := incomplete_message app_name (set_iter (required_args ∖ dom app_config)) in
  ∃ stored : gmap string AppConfig,
    parse_config command (files w1) "pyproject.toml"
    = (raise (BriefcaseConfigError msg), set_apps command stored)
    ∧ (∀ later, later ∈ post → stored !! later.1 = None)
    ∧ (∀ post', resolve_apps command (pre ++ (app_name, raw) :: post') ∅
                = (raise (BriefcaseConfigError msg), stored))
    ∧ (∀ command_call,
         main command_call argv w
         = (Exit config_error_code,
            print (config_error_str msg) (config_error_code =? 0)%Z w1)).
Proof.
  intros Hcmd Hfile Hparse Hnd Hpre Hres Hnew msg.
  pose proof (resolve_app_TypeError set_iter AppConfig_init_params AppConfig_new
                _ app_name _ _ Hres Hnew) as Hfail.
  rewrite fmap_app, fmap_cons in Hnd.
  apply NoDup_app in Hnd as (Hnd_pre & Hdisj & Hnd_post).
  exists (list_to_map (zip pre.*1 built)).
  assert (Hcfg : parse_config command (files w1) "pyproject.toml"
                 = (raise (BriefcaseConfigError msg),
                    set_apps command (list_to_map (zip pre.*1 built)))).
  { by erewrite parse_config_first_failure by eassumption. }
  split; [done|]. split; [|split].
  - intros later Hlater. apply stored_lookup_fresh. intros Hin.
    apply (Hdisj _ Hin). right. by apply list_elem_of_fmap_2.
  - intros post'.
    rewrite (resolve_apps_first_failure _ _ _ _ _ _ _ post' _ ∅ Hnd_pre Hpre Hfail).
    by rewrite (right_id_L ∅ (∪)).
  - intros command_call. unfold main.
    by rewrite (main_body_config_raises _ _ _ _ _ _ _ Hcmd Hcfg).
Qed.

Hypothesis config_error_code_nonzero : config_error_code ≠ 0.

(** C7: main exits with code 0 when the command line parses, the
    configuration resolves and the command returns.  A configuration error
    raised by parse_config makes it exit with the non-zero code of that
    error, its message written to the error stream.  Any BriefcaseError makes
    it exit with the error's code; the message goes to the standard output
    stream when the code is 0 and to the error stream otherwise. *)
Theorem exit_code_and_stream_by_error_code command_call argv w :
  (∀ w', main_body command_call argv w = (ok tt, w') →
         main command_call argv w = (Exit 0, w'))
  ∧ (∀ command w1 msg self',
       parse_cmdline (drop 1 argv) w = (ok command, w1) →
       parse_config command (files w1) "pyproject.toml"
         = (raise (BriefcaseConfigError msg), self') →
       main command_call argv w
       = (Exit config_error_code,
          {| files := files w1; stdout := stdout w1;
             stderr := stderr w1 +:+ config_error_str msg +:+ newline |})
       ∧ config_error_code ≠ 0)
  ∧ (∀ e text w',
       main_body command_call argv w = (raise e, w') →
       as_BriefcaseError config_error_code config_error_str e = Some (0, text) →
       main command_call argv w
       = (Exit 0,
          {| files := files w'; stdout := stdout w' +:+ text +:+ newline;
             stderr := stderr w' |}))
  ∧ (∀ e error_code text w',
       main_body command_call argv w = (raise e, w') →
       as_BriefcaseError config_error_code config_error_str e = Some (error_code, text) →
       error_code ≠ 0 →
       main command_call argv w
       = (Exit error_code,
          {| files := files w'; stdout := stdout w';
             stderr := stderr w' +:+ text +:+ newline |})).
Proof.
  split; [|split; [|split]].
  - intros w' Hbody. unfold main. by rewrite Hbody.
  - intros command w1 msg self' Hcmd Hcfg. split; [|done].
    unfold main.
    rewrite (main_body_config_raises _ _ _ _ _ _ _ Hcmd Hcfg). simpl.
    unfold print. by rewrite (proj2 (Z.eqb_neq _ _) config_error_code_nonzero).
  - intros e text w' Hbody He. unfold main. by rewrite Hbody, He.
  - intros e error_code text w' Hbody He Hcode. unfold main.
    rewrite Hbody, He. unfold print.
    by rewrite (proj2 (Z.eqb_neq _ _) Hcode).
Qed.

End Lifecycle.

(** ** The properties on the sample instance *)

Lemma three_overlays_on_sample :
  resolve_app_config ascending_iter Sample.command Sample.overriding
  = ok (overlay (overlay (defaults_layer Sample.command) Sample.overriding)
                (explicit_layer Sample.command))
  ∧ overlay (overlay (defaults_layer Sample.command) Sample.overriding)
            (explicit_layer Sample.command) !! "template" = Some (VStr "custom")
  ∧ overlay (overlay (defaults_layer Sample.command) Sample.overriding)
            (explicit_layer Sample.command) !! "bundle" = Some VNone.
Proof.
  destruct (resolve_app_config_three_overlays ascending_iter ascending_iter_valid
              Sample.command Sample.overriding) as (Hiff & Hfile & Hseed & Hcmd).
  split; [|split].
  - apply Hiff. split; [|reflexivity]. compute_done.
  - apply Hfile; [compute_done | compute_done | reflexivity].
  - apply Hcmd; [compute_done | compute_done | reflexivity].
Defined.

Lemma sample_unknown_key_passes_through :
  dom Sample.with_unknown_key_resolved
    ⊆ config_options (cmd_class Sample.command) ∪ dom Sample.with_unknown_key
  ∧ Sample.with_unknown_key_resolved !! "colour" = Sample.with_unknown_key !! "colour".
Proof.
  destruct (resolved_keys_from_options_or_file descending_iter descending_iter_valid
              Sample.command Sample.with_unknown_key Sample.with_unknown_key_resolved)
    as (Honly & _ & Hpass).
  - vm_compute. reflexivity.
  - split; [exact Honly|]. apply Hpass; compute_done.
Defined.

Lemma sample_classification :
  "template" ∈ default_options Sample.command
  ∧ ("verbosity" ∉ default_options Sample.command)
  ∧ ("bundle" ∉ default_options Sample.command)
  ∧ Sample.incomplete_resolved !! "bundle" = options Sample.command !! "bundle".
Proof.
  destruct (default_bearing_iff_some_truthy_declaration Sample.parse_args
              ascending_iter ascending_iter_valid
              Sample.cls "macOS" "app" [] [] Sample.command)
    as (_ & Hiff & Hfalsy & _ & Hexplicit & _).
  - vm_compute. reflexivity.
  - assert (Hfalse : ∀ name, name = "verbosity" ∨ name = "bundle" →
              ∀ action : Action, action ∈ add_options Sample.cls [] →
              dest action = name → truthy (default action) = false).
    { intros name Hname action Ha Hdest. simpl in Ha.
      repeat (apply elem_of_cons in Ha as [->|Ha]);
        try (by apply elem_of_nil in Ha); simpl in *; try reflexivity.
      destruct Hname as [->| ->]; discriminate Hdest. }
    split; [|split; [|split]].
    + apply Hiff. exists (mkAction "template" (VStr "cookiecutter")).
      split; [simpl; by repeat constructor|]. split; reflexivity.
    + apply Hfalsy, Hfalse. by left.
    + apply Hfalsy, Hfalse. by right.
    + apply (Hexplicit "bundle" Sample.incomplete);
        [ apply Hfalse; by right | compute_done | vm_compute; reflexivity ].
Defined.

Lemma falsy_declaration_classified_default_bearing :
  init Sample.parse_args Edge.paired_cls "macOS" "app" [] [] = ok Edge.paired_command
  ∧ mkAction "sign" (VBool false) ∈ add_options Edge.paired_cls []
  ∧ truthy (default (mkAction "sign" (VBool false))) = false
  ∧ "sign" ∈ default_options Edge.paired_command
  ∧ "sign" ∈ config_options (cmd_class Edge.paired_command)
  ∧ options Edge.paired_command !! "sign" = Some (VBool false)
  ∧ resolve_app_config elements Edge.paired_command Edge.signing = ok Edge.signing
  ∧ Edge.signing !! "sign" = Some (VStr "adhoc").
Proof.
  split; [vm_compute; reflexivity|].
  split; [simpl; by repeat constructor|].
  split; [reflexivity|].
  split; [compute_done|].
  split; [compute_done|].
  split; [reflexivity|].
  split; [vm_compute; reflexivity | reflexivity].
Qed.

Example open_below_regular_file_not_reported_as_missing :
  parse_config elements Sample.init_params Sample.AppConfig_new
    (Sample.parser_yielding []) Sample.command Sample.fs "pyproject.toml/x"
  = (raise (OtherException "NotADirectoryError"), Sample.command).
Proof. reflexivity. Qed.

Lemma sample_without_project_file :
  parse_config elements Sample.init_params Sample.AppConfig_new
    (Sample.parser_yielding [("first", Sample.complete)])
    Sample.command Sample.empty_directory "pyproject.toml"
  = (raise (BriefcaseConfigError "configuration file not found"), Sample.command).
Proof.
  apply (parse_config_file_not_found elements Sample.init_params Sample.AppConfig_new
           (Sample.parser_yielding [("first", Sample.complete)])
           Sample.command Sample.empty_directory "pyproject.toml").
  reflexivity.
Defined.

Lemma sample_missing_fields_listed :
  ∃ missing : list string,
    (parse_config ascending_iter Sample.init_params Sample.AppConfig_new
       (Sample.parser_yielding [("first", Sample.complete); ("second", Sample.incomplete)])
       Sample.command Sample.fs "pyproject.toml").1
    = raise (BriefcaseConfigError
               ("Configuration for 'second' is incomplete (missing "
                +:+ String.concat ", " (quote_arg <$> missing) +:+ ")"))
    ∧ NoDup missing
    ∧ ("version" ∈ missing ∧ "name" ∈ missing ∧ "bundle" ∉ missing).
Proof.
  destruct (incomplete_error_lists_every_missing_field
              ascending_iter ascending_iter_valid Sample.init_params Sample.AppConfig_new
              (Sample.parser_yielding [("first", Sample.complete); ("second", Sample.incomplete)])
              Sample.command Sample.fs "pyproject.toml" "[tool.briefcase]"
              [("first", Sample.complete)] [Sample.first_app]
              "second" Sample.incomplete [] Sample.incomplete_resolved)
    as (missing & Hmsg & Hnd & Hin).
  - reflexivity.
  - reflexivity.
  - compute_done.
  - constructor; [vm_compute; reflexivity | constructor].
  - vm_compute. reflexivity.
  - vm_compute. reflexivity.
  - exists missing. split; [exact Hmsg|]. split; [exact Hnd|].
    split; [|split].
    + apply Hin. split; [|reflexivity].
      exists (mkSigParameter "version" None).
      split; [unfold Sample.init_params; by repeat constructor|].
      simpl. repeat split; [intros [=] | intros [=]].
    + apply Hin. split; [|reflexivity].
      exists (mkSigParameter "name" None).
      split; [unfold Sample.init_params; by repeat constructor|].
      simpl. repeat split; [intros [=] | intros [=]].
    + intros [_ Habsent]%Hin. vm_compute in Habsent. discriminate Habsent.
Defined.

Lemma sample_unexpected_keyword :
  (parse_config descending_iter Sample.init_params Sample.AppConfig_new
     (Sample.parser_yielding [("third", Sample.with_unknown_key)])
     Sample.command Sample.fs "pyproject.toml").1
  = raise (BriefcaseConfigError "Configuration for 'third' is incomplete (missing )").
Proof.
  apply (any_TypeError_reported_as_incomplete
           descending_iter descending_iter_valid Sample.init_params Sample.AppConfig_new
           (Sample.parser_yielding [("third", Sample.with_unknown_key)])
           Sample.command Sample.fs "pyproject.toml" "[tool.briefcase]"
           [] [] "third" Sample.with_unknown_key [] Sample.with_unknown_key_resolved).
  - reflexivity.
  - reflexivity.
  - constructor.
  - constructor.
  - vm_compute. reflexivity.
  - vm_compute. reflexivity.
  - compute_done.
Defined.

Lemma sample_two_applications :
  ∃ stored : gmap string (gmap string pyval),
    parse_config elements Sample.init_params Sample.AppConfig_new
      (Sample.parser_yielding [("first", Sample.complete); ("fourth", Sample.complete)])
      Sample.command Sample.fs "pyproject.toml"
    = (ok tt, set_apps Sample.command stored)
    ∧ apps (parse_config elements Sample.init_params Sample.AppConfig_new
              (Sample.parser_yielding
                 [("first", Sample.complete); ("fourth", Sample.complete)])
              Sample.command Sample.fs "pyproject.toml").2
      = Some stored
    ∧ dom stored = list_to_set ["first"; "fourth"]
    ∧ size stored = 2%nat
    ∧ stored !! "first" = Some Sample.first_app
    ∧ stored !! "fourth" = Some Sample.first_app.
Proof.
  destruct (every_application_gets_one_AppConfig
              elements Sample.init_params Sample.AppConfig_new
              (Sample.parser_yielding [("first", Sample.complete); ("fourth", Sample.complete)])
              Sample.command Sample.fs "pyproject.toml" "[tool.briefcase]"
              [("first", Sample.complete); ("fourth", Sample.complete)])
    as [_ Hall].
  - reflexivity.
  - reflexivity.
  - compute_done.
  - destruct (Hall [Sample.first_app; Sample.first_app])
      as (stored & Hrun & Happs & Hdom & Hsize & Heach).
    + constructor; [vm_compute; reflexivity|].
      constructor; [vm_compute; reflexivity | constructor].
    + exists stored. split; [exact Hrun|]. split; [exact Happs|].
      split; [exact Hdom|]. split; [exact Hsize|]. split.
      * destruct (Heach 0%nat ("first", Sample.complete) eq_refl)
          as (app & [= <-] & _ & Hstored).
        exact Hstored.
      * destruct (Heach 1%nat ("fourth", Sample.complete) eq_refl)
          as (app & [= <-] & _ & Hstored).
        exact Hstored.
Defined.

Lemma sample_partial_apps :
  ∃ stored : gmap string (gmap string pyval),
    parse_config elements Sample.init_params Sample.AppConfig_new
      (Sample.parser_yielding
         [("first", Sample.complete); ("second", Sample.incomplete);
          ("fourth", Sample.complete)])
      Sample.command Sample.fs "pyproject.toml"
    = (raise (BriefcaseConfigError
                "Configuration for 'second' is incomplete (missing 'name', 'version')"),
       set_apps Sample.command stored)
    ∧ dom stored = list_to_set ["first"]
    ∧ stored !! "first" = Some Sample.first_app
    ∧ stored !! "fourth" = None.
Proof.
  destruct (failure_leaves_earlier_apps_stored
              elements Sample.init_params Sample.AppConfig_new
              (Sample.parser_yielding
                 [("first", Sample.complete); ("second", Sample.incomplete);
                  ("fourth", Sample.complete)])
              Sample.command Sample.fs "pyproject.toml" "[tool.briefcase]"
              [("first", Sample.complete)] [Sample.first_app]
              ("second", Sample.incomplete) [("fourth", Sample.complete)]
              (BriefcaseConfigError
                 "Configuration for 'second' is incomplete (missing 'name', 'version')"))
    as (stored & Hrun & _ & Hdom & Hpre & _ & Hpost).
  - reflexivity.
  - reflexivity.
  - compute_done.
  - constructor; [vm_compute; reflexivity | constructor].
  - vm_compute. reflexivity.
  - exists stored. split; [exact Hrun|]. split; [exact Hdom|]. split.
    + destruct (Hpre 0%nat ("first", Sample.complete) eq_refl) as (app & [= <-] & Happ).
      exact Happ.
    + apply (Hpost ("fourth", Sample.complete)). by repeat constructor.
Defined.

Lemma sample_abort_skips_command :
  main elements Sample.init_params Sample.AppConfig_new
    (Sample.parser_yielding
       [("first", Sample.complete); ("second", Sample.incomplete);
        ("fourth", Sample.complete)])
    Sample.parse_cmdline Sample.config_error_code Sample.config_error_str
    Sample.command_call
    ["briefcase"; "create"] Sample.world0
  = (Exit 1,
     {| files := Sample.fs; stdout := "";
        stderr := "Briefcase configuration error: Configuration for 'second' is incomplete (missing 'name', 'version')" +:+ newline |}).
Proof.
  destruct (first_validation_failure_aborts
              elements Sample.init_params Sample.AppConfig_new
              (Sample.parser_yielding
                 [("first", Sample.complete); ("second", Sample.incomplete);
                  ("fourth", Sample.complete)])
              Sample.parse_cmdline Sample.config_error_code Sample.config_error_str
              ["briefcase"; "create"] Sample.world0 Sample.world0 Sample.command
              "[tool.briefcase]"
              [("first", Sample.complete)] [Sample.first_app]
              "second" Sample.incomplete [("fourth", Sample.complete)]
              Sample.incomplete_resolved)
    as (stored & _ & _ & _ & Hmain).
  - vm_compute. reflexivity.
  - reflexivity.
  - reflexivity.
  - compute_done.
  - constructor; [vm_compute; reflexivity | constructor].
  - vm_compute. reflexivity.
  - vm_compute. reflexivity.
  - rewrite (Hmain Sample.command_call). vm_compute. reflexivity.
Defined.

Lemma sample_exit_codes :
  main elements Sample.init_params Sample.AppConfig_new
    (Sample.parser_yielding [("first", Sample.complete)])
    Sample.parse_cmdline Sample.config_error_code Sample.config_error_str
    Sample.command_call
    ["briefcase"; "create"] Sample.world0
  = (Exit 0, {| files := Sample.fs; stdout := "CREATE" +:+ newline; stderr := "" |})
  ∧ main elements Sample.init_params Sample.AppConfig_new
      (Sample.parser_yielding [("first", Sample.complete)])
      Sample.parse_cmdline Sample.config_error_code Sample.config_error_str
      Sample.command_call
      ["briefcase"] Sample.world0
    = (Exit 0,
       {| files := Sample.fs; stdout := "usage: briefcase <command>" +:+ newline;
          stderr := "" |})
  ∧ main elements Sample.init_params Sample.AppConfig_new
      (Sample.parser_yielding [("first", Sample.complete)])
      Sample.parse_cmdline Sample.config_error_code Sample.config_error_str
      Sample.command_call
      ["briefcase"; "create"] {| files := Sample.empty_directory; stdout := ""; stderr := "" |}
    = (Exit 1,
       {| files := Sample.empty_directory; stdout := "";
          stderr := "Briefcase configuration error: configuration file not found"
                    +:+ newline |}).
Proof.
  assert (Hcode : Sample.config_error_code ≠ 0) by (vm_compute; discriminate).
  split; [|split].
  - destruct (exit_code_and_stream_by_error_code
                elements Sample.init_params Sample.AppConfig_new
                (Sample.parser_yielding [("first", Sample.complete)])
                Sample.parse_cmdline Sample.config_error_code Sample.config_error_str
                Hcode Sample.command_call ["briefcase"; "create"] Sample.world0)
      as (Hok & _).
    apply Hok. vm_compute. reflexivity.
  - destruct (exit_code_and_stream_by_error_code
                elements Sample.init_params Sample.AppConfig_new
                (Sample.parser_yielding [("first", Sample.complete)])
                Sample.parse_cmdline Sample.config_error_code Sample.config_error_str
                Hcode Sample.command_call ["briefcase"] Sample.world0)
      as (_ & _ & Hinfo & _).
    apply (Hinfo (BriefcaseOtherError 0 "usage: briefcase <command>")
                 "usage: briefcase <command>" Sample.world0); reflexivity.
  - destruct (exit_code_and_stream_by_error_code
                elements Sample.init_params Sample.AppConfig_new
                (Sample.parser_yielding [("first", Sample.complete)])
                Sample.parse_cmdline Sample.config_error_code Sample.config_error_str
                Hcode Sample.command_call ["briefcase"; "create"]
                {| files := Sample.empty_directory; stdout := ""; stderr := "" |})
      as (_ & Hconfig & _).
    destruct (Hconfig Sample.command {| files := Sample.empty_directory; stdout := ""; stderr := "" |}
                "configuration file not found" Sample.command) as [Hmain _].
    + vm_compute. reflexivity.
    + vm_compute. reflexivity.
    + rewrite Hmain. reflexivity.
Defined.

Lemma missing_fields_listed_unsorted :
  valid_set_iter descending_iter
  ∧ (parse_config descending_iter Sample.init_params Sample.AppConfig_new
       (Sample.parser_yielding [("second", Sample.incomplete)])
       Sample.command Sample.fs "pyproject.toml").1
    = raise (BriefcaseConfigError
               "Configuration for 'second' is incomplete (missing 'version', 'name')")
  ∧ is_sorted ["version"; "name"] = false
  ∧ incomplete_message "second" ["version"; "name"]
    ≠ incomplete_message "second" (merge_sort String.leb ["version"; "name"]).
Proof.
  split; [exact descending_iter_valid|].
  split; [vm_compute; reflexivity|].
  split; [vm_compute; reflexivity|].
  vm_compute. intros [=].
Qed.


(** ** Further properties of the resolution *)

Lemma options_comprehension_raise ns cond names : ∀ acc e,
  options_comprehension ns cond names acc = raise e →
  ∃ name, e = AttributeError name ∧ name ∈ names ∧ cond name = true
          ∧ ns !! name = None.
Proof.
  induction names as [|option rest IH]; intros acc e Hrun; simpl in Hrun; [done|].
  destruct (cond option) eqn:Hc.
  - unfold getattr in Hrun. destruct (ns !! option) as [v|] eqn:Hv; simpl in Hrun.
    + destruct (IH _ _ Hrun) as (name & -> & Hin & Hcn & Hn).
      exists name. split; [done|]. split; [by right | done].
    + injection Hrun as <-. exists option. split; [done|]. split; [by left | done].
  - destruct (IH _ _ Hrun) as (name & -> & Hin & Hcn & Hn).
    exists name. split; [done|]. split; [by right | done].
Qed.

Section ResolutionEdges.
Context {AppConfig : Type}.
Variable set_iter : gset string → list string.
Hypothesis set_iter_perm : valid_set_iter set_iter.
Implicit Types (self : Command AppConfig) (raw : RawAppConfig).

(** X1: a command whose config_options is the empty set, as BaseCommand's
    is, resolves every application to its file configuration, unchanged,
    whatever the command line holds. *)
Theorem no_config_options_keeps_file_config self raw :
  config_options (cmd_class self) = ∅ →
  resolve_app_config set_iter self raw = ok raw.
Proof.
  intros Hnone. apply (resolve_app_config_refines set_iter set_iter_perm).
  split; [rewrite Hnone; apply empty_subseteq|].
  apply map_eq. intros key.
  rewrite three_layer_merge_lookup, explicit_layer_lookup, defaults_layer_lookup.
  rewrite Hnone, !decide_False by (intros [Hin _]; by apply not_elem_of_empty in Hin).
  by destruct (raw !! key).
Qed.

Lemma resolve_app_config_raise_inv self raw e :
  resolve_app_config set_iter self raw = raise e →
  ∃ name, e = AttributeError name
          ∧ name ∈ config_options (cmd_class self)
          ∧ options self !! name = None.
Proof.
  intros Hrun. unfold resolve_app_config in Hrun.
  set (c1 := fun option => bool_decide (option ∈ default_options self)) in Hrun.
  set (c2 := fun option => negb (bool_decide (option ∈ default_options self))) in Hrun.
  destruct (options_comprehension (options self) c1 _ ∅) as [d1|e1] eqn:E1;
    simpl in Hrun.
  - destruct (options_comprehension (options self) c2 _ ∅) as [d2|e2] eqn:E2;
      simpl in Hrun; [done|].
    injection Hrun as <-.
    destruct (options_comprehension_raise _ _ _ _ _ E2) as (name & -> & Hin & _ & Hn).
    exists name. split; [done|]. split; [|done].
    by apply (set_iter_elem set_iter set_iter_perm).
  - injection Hrun as <-.
    destruct (options_comprehension_raise _ _ _ _ _ E1) as (name & -> & Hin & _ & Hn).
    exists name. split; [done|]. split; [|done].
    by apply (set_iter_elem set_iter set_iter_perm).
Qed.

Lemma resolve_app_config_unbound self raw name :
  name ∈ config_options (cmd_class self) →
  options self !! name = None →
  ∃ unbound, resolve_app_config set_iter self raw = raise (AttributeError unbound)
             ∧ unbound ∈ config_options (cmd_class self)
             ∧ options self !! unbound = None.
Proof.
  intros Hin Hunbound.
  destruct (resolve_app_config set_iter self raw) as [m|e] eqn:Hrun.
  - apply (resolve_app_config_refines set_iter set_iter_perm) in Hrun as [Hsub _].
    apply Hsub, elem_of_dom in Hin as [v Hv]. congruence.
  - destruct (resolve_app_config_raise_inv _ _ _ Hrun) as (unbound & -> & Hu).
    by exists unbound.
Qed.

(** X3: the resolution of an application fails only with an AttributeError
    that names a config-relevant option which the parsed command line does not
    bind, and it does fail whenever there is such an option, even if the file
    configuration supplies a value for it. *)
Theorem resolution_fails_on_unbound_option self raw :
  (∀ e, resolve_app_config set_iter self raw = raise e →
        ∃ name, e = AttributeError name
                ∧ name ∈ config_options (cmd_class self)
                ∧ options self !! name = None)
  ∧ (∀ name, name ∈ config_options (cmd_class self) →
             options self !! name = None →
             ∃ unbound, resolve_app_config set_iter self raw
                        = raise (AttributeError unbound)
                        ∧ unbound ∈ config_options (cmd_class self)
                        ∧ options self !! unbound = None).
Proof.
  split.
  - intros e. apply resolve_app_config_raise_inv.
  - intros name. apply resolve_app_config_unbound.
Qed.

End ResolutionEdges.

(** X2: the resolved configuration of an application does not depend on the
    order in which the sets are iterated: under any two iteration orders the
    resolution succeeds for the same inputs and yields the same mapping. *)
Theorem resolved_config_independent_of_set_order
    {AppConfig : Type} (iter1 iter2 : gset string → list string)
    (self : Command AppConfig) (raw : RawAppConfig) (m : gmap string pyval) :
  valid_set_iter iter1 → valid_set_iter iter2 →
  resolve_app_config iter1 self raw = ok m ↔ resolve_app_config iter2 self raw = ok m.
Proof.
  intros Hv1 Hv2.
  by rewrite (resolve_app_config_refines iter1 Hv1), (resolve_app_config_refines iter2 Hv2).
Qed.

(** ** Further properties of parse_config *)

Section ParseConfigEdges.
Context {AppConfig : Type}.
Variable set_iter : gset string → list string.
Variable AppConfig_init_params : list SigParameter.
Variable AppConfig_new : gmap string pyval → result AppConfig.
Variable config_parse_config :
  string → string → string → result (list (string * RawAppConfig)).
Implicit Types (self : Command AppConfig) (raw : RawAppConfig).

Local Abbreviation resolve_app_config := (resolve_app_config (AppConfig := AppConfig) set_iter).
Local Abbreviation resolve_app := (resolve_app set_iter AppConfig_init_params AppConfig_new).
Local Abbreviation resolve_apps := (resolve_apps set_iter AppConfig_init_params AppConfig_new).
Local Abbreviation parse_config :=
  (parse_config set_iter AppConfig_init_params AppConfig_new config_parse_config).
Local Abbreviation all_built self items built :=
  (Forall2 (fun item app => resolve_app self item = ok app) items built).

(** X4: an exception of the project-file parser leaves the command object as
    it was, the apps attribute unassigned.  A FileNotFoundError raised by the
    parser is reported as "configuration file not found" although the file
    exists; any other exception of the parser leaves parse_config unchanged. *)
Theorem parser_exception_leaves_command_untouched
    self (fs : string → result string) filename config_file e :
  fs filename = ok config_file →
  config_parse_config config_file (platform self) (output_format self) = raise e →
  (parse_config self fs filename).2 = self
  ∧ (e = FileNotFoundError →
     (parse_config self fs filename).1
     = raise (BriefcaseConfigError "configuration file not found"))
  ∧ (e ≠ FileNotFoundError → (parse_config self fs filename).1 = raise e).
Proof.
  intros Hfile Hparse. unfold parse_config. rewrite Hfile, Hparse. simpl.
  split; [done|]. split.
  - by intros ->.
  - intros Hne. by destruct e.
Qed.

Lemma resolve_app_constructor_raises self app_name raw app_config e :
  resolve_app_config self raw = ok app_config →
  AppConfig_new app_config = raise e →
  e ≠ TypeError →
  resolve_app self (app_name, raw) = raise e.
Proof.
  intros Hres Hnew Hne. unfold resolve_app, construct_app.
  rewrite Hres. simpl. rewrite Hnew. by destruct e.
Qed.

(** X5: only a TypeError of the AppConfig constructor is reported as an
    incomplete configuration.  Any other exception it raises leaves
    parse_config as it is, except a FileNotFoundError, which is reported as
    "configuration file not found". *)
Theorem constructor_exception_not_reported_as_incomplete
    self (fs : string → result string) filename config_file
    pre built app_name raw post app_config e :
  fs filename = ok config_file →
  config_parse_config config_file (platform self) (output_format self)
    = ok (pre ++ (app_name, raw) :: post) →
  NoDup pre.*1 →
  all_built self pre built →
  resolve_app_config self raw = ok app_config →
  AppConfig_new app_config = raise e →
  e ≠ TypeError →
  (e = FileNotFoundError →
   (parse_config self fs filename).1
   = raise (BriefcaseConfigError "configuration file not found"))
  ∧ (e ≠ FileNotFoundError → (parse_config self fs filename).1 = raise e).
Proof.
  intros Hfile Hparse Hnd Hpre Hres Hnew Hne.
  pose proof (resolve_app_constructor_raises _ app_name _ _ _ Hres Hnew Hne) as Hfail.
  erewrite parse_config_first_failure by eassumption. simpl. split.
  - by intros ->.
  - intros Hnf. by destruct e.
Qed.

Lemma resolve_apps_ignores_apps_attribute self old items : ∀ apps,
  resolve_apps (set_apps self old) items apps = resolve_apps self items apps.
Proof.
  induction items as [|item items IH]; intros apps; [done|]. simpl.
  change (resolve_app (set_apps self old) item) with (resolve_app self item).
  destruct (resolve_app self item); [apply IH | done].
Qed.

(** X6: parse_config does not read the apps mapping of an earlier call: its
    outcome is the same whatever that mapping was, and, once the project file
    has been parsed, so is the command it leaves, nothing of the old mapping
    surviving.  When the file cannot be opened the old mapping stays. *)
Theorem parse_config_starts_from_empty_apps
    self (old : gmap string AppConfig) (fs : string → result string) filename :
  (parse_config (set_apps self old) fs filename).1 = (parse_config self fs filename).1
  ∧ (∀ config_file items,
       fs filename = ok config_file →
       config_parse_config config_file (platform self) (output_format self) = ok items →
       (parse_config (set_apps self old) fs filename).2 = (parse_config self fs filename).2
       ∧ ∃ stored, (parse_config self fs filename).2 = set_apps self stored
                   ∧ dom stored ⊆ list_to_set items.*1)
  ∧ (∀ e, fs filename = raise e →
       apps (parse_config (set_apps self old) fs filename).2 = Some old).
Proof.
  split; [|split].
  - unfold parse_config. destruct (fs filename) as [config_file|e]; [|done].
    change (platform (set_apps self old)) with (platform self).
    change (output_format (set_apps self old)) with (output_format self).
    destruct (config_parse_config config_file _ _) as [items|e]; [|done].
    rewrite resolve_apps_ignores_apps_attribute.
    by destruct (resolve_apps self items ∅) as [[[]|e] stored].
  - intros config_file items Hfile Hparse.
    rewrite (parse_config_run _ _ _ _ _ _ _ _ _ Hfile Hparse).
    rewrite (parse_config_run _ _ _ _ (set_apps self old) _ _ _ _ Hfile Hparse).
    rewrite resolve_apps_ignores_apps_attribute.
    destruct (resolve_apps self items ∅) as [r stored] eqn:Hrun.
    split; [done|]. exists stored. split; [done|].
    clear Hparse. revert Hrun.
    assert (Hgen : ∀ apps r stored,
              resolve_apps self items apps = (r, stored) →
              dom stored ⊆ list_to_set items.*1 ∪ dom apps).
    { clear. induction items as [|item items IH]; intros apps r stored Hrun;
        simpl in Hrun.
      - injection Hrun as <- <-. apply union_subseteq_r.
      - destruct (resolve_app self item) as [app|e].
        + apply IH in Hrun. rewrite dom_insert_L in Hrun.
          rewrite fmap_cons, list_to_set_cons.
          intros k Hk. apply Hrun in Hk.
          rewrite !elem_of_union in Hk. rewrite !elem_of_union. tauto.
        + injection Hrun as <- <-. apply union_subseteq_r. }
    intros Hrun. apply Hgen in Hrun. rewrite dom_empty_L in Hrun.
    by rewrite (right_id_L ∅ (∪)) in Hrun.
  - intros e Hfile. unfold parse_config. by rewrite Hfile.
Qed.

(** X13: whatever its outcome, parse_config changes nothing of the command
    object but the apps mapping: class, platform, output format,
    classification and parsed options stay; and when it returns, the apps
    mapping has been assigned. *)
Theorem parse_config_changes_only_apps self (fs : string → result string) filename :
  cmd_class (parse_config self fs filename).2 = cmd_class self
  ∧ platform (parse_config self fs filename).2 = platform self
  ∧ output_format (parse_config self fs filename).2 = output_format self
  ∧ default_options (parse_config self fs filename).2 = default_options self
  ∧ options (parse_config self fs filename).2 = options self
  ∧ ((parse_config self fs filename).1 = ok tt →
     is_Some (apps (parse_config self fs filename).2)).
Proof.
  unfold parse_config.
  destruct (fs filename) as [config_file|e]; [|by repeat split].
  destruct (config_parse_config config_file _ _) as [items|e]; [|by repeat split].
  destruct (resolve_apps self items ∅) as [[[]|e] stored]; simpl;
    repeat split; by eauto.
Qed.

End ParseConfigEdges.

(** ** The order of the applications *)

Section ListingOrder.
Context {AppConfig : Type}.
Variable set_iter : gset string → list string.
Variable AppConfig_init_params : list SigParameter.
Variable AppConfig_new : gmap string pyval → result AppConfig.
Implicit Types (self : Command AppConfig) (raw : RawAppConfig).

Local Abbreviation resolve_app := (resolve_app set_iter AppConfig_init_params AppConfig_new).
Local Abbreviation resolve_apps := (resolve_apps set_iter AppConfig_init_params AppConfig_new).
Local Abbreviation all_built self items built :=
  (Forall2 (fun item app => resolve_app self item = ok app) items built).

Lemma all_built_stored_lookup self items built (k : string) (app : AppConfig) :
  NoDup items.*1 →
  all_built self items built →
  (list_to_map (zip items.*1 built) : gmap string AppConfig) !! k = Some app ↔
  ∃ raw, (k, raw) ∈ items ∧ resolve_app self (k, raw) = ok app.
Proof.
  intros Hnd Hall.
  pose proof (Forall2_length _ _ _ Hall) as Hlen. split.
  - intros Hin%elem_of_list_to_map_2.
    apply list_elem_of_lookup in Hin as [i Hi].
    apply lookup_zip_Some in Hi as [Hname Happ].
    rewrite list_lookup_fmap in Hname.
    destruct (items !! i) as [[k' raw]|] eqn:Hitem; [|done].
    simpl in Hname. injection Hname as ->.
    destruct (Forall2_lookup_l _ _ _ _ _ Hall Hitem) as (app' & Happ' & Hres).
    exists raw. split; [by eapply list_elem_of_lookup_2|]. congruence.
  - intros (raw & [i Hitem]%list_elem_of_lookup & Hres).
    destruct (Forall2_lookup_l _ _ _ _ _ Hall Hitem) as (app' & Happ' & Hres').
    assert (app' = app) as -> by congruence.
    apply (stored_lookup _ _ i); [done | by rewrite length_fmap | | done].
    by rewrite list_lookup_fmap, Hitem.
Qed.

Lemma all_built_of_Forall self items :
  Forall (fun item => ∃ app, resolve_app self item = ok app) items →
  ∃ built, all_built self items built.
Proof.
  induction 1 as [|item items [app Happ] _ [built IH]].
  - exists []. constructor.
  - exists (app :: built). by constructor.
Qed.

(** X7: when every application of the project file constructs, the apps
    mapping that the loop leaves does not depend on the order in which the
    parser lists the applications. *)
Theorem apps_independent_of_listing_order
    self items items' (stored : gmap string AppConfig) :
  items ≡ₚ items' →
  NoDup items.*1 →
  resolve_apps self items ∅ = (ok tt, stored) →
  resolve_apps self items' ∅ = (ok tt, stored).
Proof.
  intros Hperm Hnd Hrun.
  destruct (resolve_apps_ok_inv _ _ _ _ _ _ _ Hrun) as [built Hall].
  rewrite (resolve_apps_all_ok _ _ _ _ _ _ ∅ Hnd Hall) in Hrun.
  injection Hrun as <-.
  assert (Hnd' : NoDup items'.*1) by (by rewrite <- Hperm).
  destruct (all_built_of_Forall self items') as [built' Hall'].
  { rewrite <- Hperm. apply Forall_forall. intros item Hin.
    apply list_elem_of_lookup in Hin as [i Hi].
    destruct (Forall2_lookup_l _ _ _ _ _ Hall Hi) as (app & _ & Hres). by exists app. }
  rewrite (resolve_apps_all_ok _ _ _ _ _ _ ∅ Hnd' Hall'). f_equal.
  rewrite !(right_id_L ∅ (∪)).
  apply map_eq. intros k. apply option_eq. intros app.
  rewrite (all_built_stored_lookup _ _ _ _ _ Hnd' Hall').
  rewrite (all_built_stored_lookup _ _ _ _ _ Hnd Hall).
  split; intros (raw & Hin & Hres); exists raw; split; try done.
  - by rewrite Hperm.
  - by rewrite <- Hperm.
Qed.

End ListingOrder.

(** ** Further properties of the constructor and of main *)

Lemma extract_default_options_app (actions1 actions2 : list Action) :
  extract_default_options (actions1 ++ actions2)
  = extract_default_options actions1 ∪ extract_default_options actions2.
Proof.
  unfold extract_default_options.
  by rewrite filter_app, fmap_app, list_to_set_app_L.
Qed.

(** X8: the actions that the parser holds before add_options runs are
    classified too: for a class whose add_options appends its declarations,
    the default-bearing names are those of the earlier actions together with
    those of the appended ones; for BaseCommand, whose add_options adds
    nothing, they are those of the earlier actions alone. *)
Theorem earlier_parser_actions_are_classified
    {AppConfig : Type} (parse_args : list Action → list string → result Namespace)
    cls platform output_format parser extra added (self : Command AppConfig) :
  add_options cls parser = parser ++ added →
  init parse_args cls platform output_format parser extra = ok self →
  default_options self
  = extract_default_options parser ∪ extract_default_options added
  ∧ (added = [] → default_options self = extract_default_options parser).
Proof.
  intros Hadd (_ & Hdef & _)%init_ok_inv.
  rewrite Hdef, Hadd, extract_default_options_app. split; [done|].
  intros ->. unfold extract_default_options at 2. simpl.
  by rewrite (right_id_L ∅ (∪)).
Qed.

Section MainEdges.
Context {AppConfig : Type}.
Variable set_iter : gset string → list string.
Variable AppConfig_init_params : list SigParameter.
Variable AppConfig_new : gmap string pyval → result AppConfig.
Variable config_parse_config :
  string → string → string → result (list (string * RawAppConfig)).
Variable parse_cmdline : list string → world → result (Command AppConfig) * world.
Variable config_error_code : Z.
Variable config_error_str : string → string.
Implicit Types (self command : Command AppConfig) (raw : RawAppConfig) (w : world).

Local Abbreviation resolve_app := (resolve_app set_iter AppConfig_init_params AppConfig_new).
Local Abbreviation parse_config :=
  (parse_config set_iter AppConfig_init_params AppConfig_new config_parse_config).
Local Abbreviation all_built self items built :=
  (Forall2 (fun item app => resolve_app self item = ok app) items built).
Local Abbreviation main_body :=
  (main_body set_iter AppConfig_init_params AppConfig_new config_parse_config
     parse_cmdline).
Local Abbreviation main :=
  (main set_iter AppConfig_init_params AppConfig_new config_parse_config
     parse_cmdline config_error_code config_error_str).

Lemma main_body_config_resolved command_call argv w w1 command config_file app_configs built :
  parse_cmdline (drop 1 argv) w = (ok command, w1) →
  files w1 "pyproject.toml" = ok config_file →
  config_parse_config config_file (platform command) (output_format command)
    = ok app_configs →
  NoDup app_configs.*1 →
  all_built command app_configs built →
  main_body command_call argv w
  = command_call (set_apps command (list_to_map (zip app_configs.*1 built))) w1.
Proof.
  intros Hcmd Hfile Hparse Hnd Hall. unfold main_body. rewrite Hcmd.
  by rewrite (parse_config_all_built _ _ _ _ _ _ _ _ _ _ Hfile Hparse Hnd Hall).
Qed.

(** X9: when the command line parses, the project file exists and every
    application constructs, main calls the command once, on the command object
    that parse_config left, in the world that the command-line parser left.
    The apps attribute of that object is a mapping that holds, for each
    application name of the parser's output and for no other name, the
    AppConfig built for it.  main exits with code 0 when the call returns, and
    writes nothing of its own. *)
Theorem command_runs_on_fully_resolved_apps
    command_call argv w w1 command config_file app_configs built :
  parse_cmdline (drop 1 argv) w = (ok command, w1) →
  files w1 "pyproject.toml" = ok config_file →
  config_parse_config config_file (platform command) (output_format command)
    = ok app_configs →
  NoDup app_configs.*1 →
  all_built command app_configs built →
  let resolved := (parse_config command (files w1) "pyproject.toml").2 in
  main_body command_call argv w = command_call resolved w1
  ∧ (∃ stored : gmap string AppConfig,
       apps resolved = Some stored
       ∧ dom stored = list_to_set app_configs.*1
       ∧ ∀ i item, app_configs !! i = Some item →
           ∃ app, built !! i = Some app
                  ∧ resolve_app command item = ok app
                  ∧ stored !! item.1 = Some app)
  ∧ options resolved = options command
  ∧ (∀ w2, command_call resolved w1 = (ok tt, w2) →
           main command_call argv w = (Exit 0, w2)).
Proof.
  intros Hcmd Hfile Hparse Hnd Hall resolved.
  pose proof (main_body_config_resolved command_call _ _ _ _ _ _ _
                Hcmd Hfile Hparse Hnd Hall) as Hbody.
  pose proof (parse_config_all_built _ _ _ _ _ _ _ _ _ _ Hfile Hparse Hnd Hall) as Hcfg.
  pose proof (Forall2_length _ _ _ Hall) as Hlen.
  assert (Hres : resolved = set_apps command (list_to_map (zip app_configs.*1 built))).
  { unfold resolved. by rewrite Hcfg. }
  rewrite Hres. split; [done|]. split; [|split; [done|]].
  - exists (list_to_map (zip app_configs.*1 built)).
    split; [done|]. split; [apply stored_dom; by rewrite length_fmap|].
    intros i item Hitem.
    destruct (Forall2_lookup_l _ _ _ _ _ Hall Hitem) as (app & Happ & Hbuilt).
    exists app. split; [done|]. split; [done|].
    apply (stored_lookup _ _ i); [done | by rewrite length_fmap | | done].
    by rewrite list_lookup_fmap, Hitem.
  - intros w2 Hcall. unfold main. by rewrite Hbody, Hcall.
Qed.

(** X12: with the __call__ of one of the five command classes as the
    command body, a run whose configuration resolves writes one line to the
    standard output stream, the banner of the class and the description of
    the command separated by a space, and exits with code 0; when the
    command has no description the run ends, after the configuration has
    been resolved, with an AttributeError that no handler catches. *)
Theorem resolved_command_prints_banner_and_description
    kind description argv w w1 command config_file app_configs built :
  parse_cmdline (drop 1 argv) w = (ok command, w1) →
  files w1 "pyproject.toml" = ok config_file →
  config_parse_config config_file (platform command) (output_format command)
    = ok app_configs →
  NoDup app_configs.*1 →
  all_built command app_configs built →
  main (fun _ => call kind description) argv w
  = match description with
    | Some text =>
        (Exit 0,
         {| files := files w1;
            stdout := stdout w1 +:+ (banner kind +:+ " " +:+ text) +:+ newline;
            stderr := stderr w1 |})
    | None => (Uncaught (AttributeError "description"), w1)
    end.
Proof.
  intros Hcmd Hfile Hparse Hnd Hall. unfold main.
  rewrite (main_body_config_resolved _ _ _ _ _ _ _ _ Hcmd Hfile Hparse Hnd Hall).
  by destruct kind, description.
Qed.

End MainEdges.

(** X10: when the command-line parser raises, main neither reads the
    project file nor calls the command: its result is the report of that
    exception in the world the parser left, whatever the project file, the
    file parser, the AppConfig constructor and the command body are. *)
Theorem cmdline_exception_skips_configuration
    {AppConfig : Type}
    (parse_cmdline : list string → world → result (Command AppConfig) * world)
    (config_error_code : Z) (config_error_str : string → string)
    argv w w1 e :
  parse_cmdline (drop 1 argv) w = (raise e, w1) →
  ∀ set_iter AppConfig_init_params AppConfig_new config_parse_config command_call,
    main set_iter AppConfig_init_params AppConfig_new config_parse_config
      parse_cmdline config_error_code config_error_str command_call argv w
    = match as_BriefcaseError config_error_code config_error_str e with
      | Some (error_code, text) =>
          (Exit error_code, print text (error_code =? 0)%Z w1)
      | None => (Uncaught e, w1)
      end.
Proof.
  intros Hcmd set_iter params new parser command_call.
  unfold main, main_body. by rewrite Hcmd.
Qed.

(** X11: when a config-relevant option of the command is not bound by the
    parsed command line and the project file describes at least one
    application, main ends with an AttributeError that no handler catches: it
    writes no message, sets no exit code and does not call the command. *)
Theorem unbound_option_ends_main_uncaught
    {AppConfig : Type} (set_iter : gset string → list string)
    (parse_cmdline : list string → world → result (Command AppConfig) * world)
    (config_parse_config : string → string → string → result (list (string * RawAppConfig)))
    (config_error_code : Z) (config_error_str : string → string)
    argv w w1 (command : Command AppConfig) config_file item rest name :
  valid_set_iter set_iter →
  parse_cmdline (drop 1 argv) w = (ok command, w1) →
  files w1 "pyproject.toml" = ok config_file →
  config_parse_config config_file (platform command) (output_format command)
    = ok (item :: rest) →
  name ∈ config_options (cmd_class command) →
  options command !! name = None →
  ∃ unbound,
    unbound ∈ config_options (cmd_class command)
    ∧ options command !! unbound = None
    ∧ ∀ AppConfig_init_params AppConfig_new command_call,
        main set_iter AppConfig_init_params AppConfig_new config_parse_config
          parse_cmdline config_error_code config_error_str command_call argv w
        = (Uncaught (AttributeError unbound), w1).
Proof.
  intros Hvalid Hcmd Hfile Hparse Hin Hunbound.
  destruct item as [app_name raw].
  destruct (resolve_app_config_unbound set_iter Hvalid command raw name Hin Hunbound)
    as (unbound & Hrun & Hu & Hn).
  exists unbound. split; [done|]. split; [done|].
  intros params new command_call.
  unfold main, main_body. rewrite Hcmd.
  unfold parse_config. rewrite Hfile, Hparse. simpl.
  unfold resolve_app. by rewrite Hrun.
Qed.

(** ** The further properties on the sample inputs *)

Lemma base_command_keeps_file_config :
  resolve_app_config descending_iter Edge.base_command Sample.overriding
  = ok Sample.overriding.
Proof.
  apply (no_config_options_keeps_file_config descending_iter descending_iter_valid
           Edge.base_command Sample.overriding).
  reflexivity.
Defined.

Lemma sample_resolution_in_both_orders :
  resolve_app_config descending_iter Sample.command Sample.overriding
  = ok Edge.overriding_resolved.
Proof.
  apply (resolved_config_independent_of_set_order ascending_iter descending_iter
           Sample.command Sample.overriding Edge.overriding_resolved
           ascending_iter_valid descending_iter_valid).
  vm_compute. reflexivity.
Defined.

Lemma sample_unbound_icon :
  ∃ unbound,
    resolve_app_config ascending_iter Edge.unbound_command Sample.complete
    = raise (AttributeError unbound)
    ∧ unbound ∈ config_options (cmd_class Edge.unbound_command)
    ∧ options Edge.unbound_command !! unbound = None.
Proof.
  destruct (resolution_fails_on_unbound_option ascending_iter ascending_iter_valid
              Edge.unbound_command Sample.complete) as [_ Hfails].
  apply (Hfails "icon"); [compute_done | reflexivity].
Defined.

Lemma sample_parser_raises_not_found :
  (parse_config elements Sample.init_params Sample.AppConfig_new
     (Edge.parser_raising FileNotFoundError)
     Sample.command Sample.fs "pyproject.toml").2 = Sample.command
  ∧ (parse_config elements Sample.init_params Sample.AppConfig_new
       (Edge.parser_raising FileNotFoundError)
       Sample.command Sample.fs "pyproject.toml").1
    = raise (BriefcaseConfigError "configuration file not found").
Proof.
  destruct (parser_exception_leaves_command_untouched
              elements Sample.init_params Sample.AppConfig_new
              (Edge.parser_raising FileNotFoundError)
              Sample.command Sample.fs "pyproject.toml" "[tool.briefcase]"
              FileNotFoundError) as (Hself & Hnf & _).
  - reflexivity.
  - reflexivity.
  - split; [exact Hself | by apply Hnf].
Defined.

Lemma sample_constructor_raises_other :
  (parse_config elements Sample.init_params
     (Edge.AppConfig_raising (OtherException "ValueError"))
     (Sample.parser_yielding [("first", Sample.complete)])
     Sample.command Sample.fs "pyproject.toml").1
  = raise (OtherException "ValueError").
Proof.
  destruct (constructor_exception_not_reported_as_incomplete
              elements Sample.init_params
              (Edge.AppConfig_raising (OtherException "ValueError"))
              (Sample.parser_yielding [("first", Sample.complete)])
              Sample.command Sample.fs "pyproject.toml" "[tool.briefcase]"
              [] [] "first" Sample.complete [] Sample.complete_resolved
              (OtherException "ValueError")) as [_ Hother].
  - reflexivity.
  - reflexivity.
  - constructor.
  - constructor.
  - vm_compute. reflexivity.
  - reflexivity.
  - intros [=].
  - apply Hother. intros [=].
Defined.

Lemma sample_stale_apps :
  apps (parse_config elements Sample.init_params Sample.AppConfig_new
          (Sample.parser_yielding [("first", Sample.complete)])
          (set_apps Sample.command Edge.two_apps) Sample.empty_directory "pyproject.toml").2
  = Some Edge.two_apps
  ∧ (parse_config elements Sample.init_params Sample.AppConfig_new
       (Sample.parser_yielding [("first", Sample.complete)])
       (set_apps Sample.command Edge.two_apps) Sample.fs "pyproject.toml").2
    = (parse_config elements Sample.init_params Sample.AppConfig_new
         (Sample.parser_yielding [("first", Sample.complete)])
         Sample.command Sample.fs "pyproject.toml").2.
Proof.
  split.
  - destruct (parse_config_starts_from_empty_apps
                elements Sample.init_params Sample.AppConfig_new
                (Sample.parser_yielding [("first", Sample.complete)])
                Sample.command Edge.two_apps Sample.empty_directory "pyproject.toml") as (_ & _ & Hkept).
    apply (Hkept FileNotFoundError). reflexivity.
  - destruct (parse_config_starts_from_empty_apps
                elements Sample.init_params Sample.AppConfig_new
                (Sample.parser_yielding [("first", Sample.complete)])
                Sample.command Edge.two_apps Sample.fs "pyproject.toml")
      as (_ & Hfresh & _).
    destruct (Hfresh "[tool.briefcase]" [("first", Sample.complete)]) as [Hsame _];
      [reflexivity | reflexivity | exact Hsame].
Defined.

Lemma sample_two_apps_swapped :
  resolve_apps elements Sample.init_params Sample.AppConfig_new Sample.command
    [("fourth", Sample.complete); ("first", Sample.complete)] ∅
  = (ok tt, Edge.two_apps).
Proof.
  apply (apps_independent_of_listing_order
           elements Sample.init_params Sample.AppConfig_new Sample.command
           [("first", Sample.complete); ("fourth", Sample.complete)]
           [("fourth", Sample.complete); ("first", Sample.complete)]
           Edge.two_apps).
  - apply perm_swap.
  - compute_done.
  - vm_compute. reflexivity.
Defined.

Lemma sample_default_options_from_appended :
  default_options Edge.helped_command
  = extract_default_options [Edge.help_action]
    ∪ extract_default_options
        [ mkAction "template" (VStr "cookiecutter"); mkAction "bundle" VNone;
          mkAction "verbosity" (VInt 0) ]
  ∧ "help" ∈ default_options Edge.helped_command.
Proof.
  destruct (earlier_parser_actions_are_classified Edge.parse_args
              Sample.cls "macOS" "app" [Edge.help_action] []
              [ mkAction "template" (VStr "cookiecutter"); mkAction "bundle" VNone;
                mkAction "verbosity" (VInt 0) ]
              Edge.helped_command) as [Hdef _].
  - reflexivity.
  - vm_compute. reflexivity.
  - split; [exact Hdef|]. rewrite Hdef. apply elem_of_union_l. compute_done.
Defined.

Lemma sample_run_calls_command :
  main elements Sample.init_params Sample.AppConfig_new
    (Sample.parser_yielding [("first", Sample.complete); ("fourth", Sample.complete)])
    Sample.parse_cmdline Sample.config_error_code Sample.config_error_str
    Sample.command_call ["briefcase"; "create"] Sample.world0
  = (Exit 0, print "CREATE" true Sample.world0)
  ∧ ∃ stored : gmap string (gmap string pyval),
      apps (parse_config elements Sample.init_params Sample.AppConfig_new
              (Sample.parser_yielding
                 [("first", Sample.complete); ("fourth", Sample.complete)])
              Sample.command (files Sample.world0) "pyproject.toml").2
      = Some stored
      ∧ stored !! "fourth" = Some Sample.first_app.
Proof.
  destruct (command_runs_on_fully_resolved_apps
              elements Sample.init_params Sample.AppConfig_new
              (Sample.parser_yielding
                 [("first", Sample.complete); ("fourth", Sample.complete)])
              Sample.parse_cmdline Sample.config_error_code Sample.config_error_str
              Sample.command_call ["briefcase"; "create"] Sample.world0 Sample.world0
              Sample.command "[tool.briefcase]"
              [("first", Sample.complete); ("fourth", Sample.complete)]
              [Sample.first_app; Sample.first_app])
    as (_ & (stored & Happs & _ & Heach) & _ & Hexit).
  - vm_compute. reflexivity.
  - reflexivity.
  - reflexivity.
  - compute_done.
  - constructor; [vm_compute; reflexivity|].
    constructor; [vm_compute; reflexivity | constructor].
  - split; [apply Hexit; reflexivity|].
    exists stored. split; [exact Happs|].
    destruct (Heach 1%nat ("fourth", Sample.complete) eq_refl)
      as (app & [= <-] & _ & Hstored).
    exact Hstored.
Defined.

Lemma sample_usage_error_skips_configuration :
  main elements Sample.init_params Sample.AppConfig_new
    (Edge.parser_raising (OtherException "unreachable"))
    Sample.parse_cmdline Sample.config_error_code Sample.config_error_str
    Sample.command_call ["briefcase"] Sample.world0
  = (Exit 0, print "usage: briefcase <command>" true Sample.world0).
Proof.
  apply (cmdline_exception_skips_configuration
           Sample.parse_cmdline Sample.config_error_code Sample.config_error_str
           ["briefcase"] Sample.world0 Sample.world0
           (BriefcaseOtherError 0 "usage: briefcase <command>")).
  reflexivity.
Defined.

Lemma sample_unbound_icon_ends_uncaught :
  ∃ unbound,
    main ascending_iter Sample.init_params Sample.AppConfig_new
      (Sample.parser_yielding [("first", Sample.complete)])
      (Edge.cmdline_yielding Edge.unbound_command)
      Sample.config_error_code Sample.config_error_str
      Sample.command_call ["briefcase"; "create"] Sample.world0
    = (Uncaught (AttributeError unbound), Sample.world0).
Proof.
  destruct (unbound_option_ends_main_uncaught ascending_iter
              (Edge.cmdline_yielding Edge.unbound_command)
              (Sample.parser_yielding [("first", Sample.complete)])
              Sample.config_error_code Sample.config_error_str
              ["briefcase"; "create"] Sample.world0 Sample.world0
              Edge.unbound_command "[tool.briefcase]"
              ("first", Sample.complete) [] "icon")
    as (unbound & _ & _ & Hmain).
  - exact ascending_iter_valid.
  - reflexivity.
  - reflexivity.
  - reflexivity.
  - compute_done.
  - reflexivity.
  - exists unbound. apply Hmain.
Defined.

Lemma sample_create_prints_description :
  main elements Sample.init_params Sample.AppConfig_new
    (Sample.parser_yielding [("first", Sample.complete)])
    Sample.parse_cmdline Sample.config_error_code Sample.config_error_str
    (fun _ => call CreateCommand (Some "Create and populate a new application"))
    ["briefcase"; "create"] Sample.world0
  = (Exit 0,
     {| files := Sample.fs;
        stdout := "CREATE: Create and populate a new application" +:+ newline;
        stderr := "" |}).
Proof.
  rewrite (resolved_command_prints_banner_and_description
             elements Sample.init_params Sample.AppConfig_new
             (Sample.parser_yielding [("first", Sample.complete)])
             Sample.parse_cmdline Sample.config_error_code Sample.config_error_str
             CreateCommand (Some "Create and populate a new application")
             ["briefcase"; "create"] Sample.world0 Sample.world0
             Sample.command "[tool.briefcase]"
             [("first", Sample.complete)] [Sample.first_app]).
  - reflexivity.
  - vm_compute. reflexivity.
  - reflexivity.
  - reflexivity.
  - compute_done.
  - constructor; [vm_compute; reflexivity | constructor].
Defined.

Lemma sample_parse_keeps_options :
  options (parse_config elements Sample.init_params Sample.AppConfig_new
             (Sample.parser_yielding [("second", Sample.incomplete)])
             Sample.command Sample.fs "pyproject.toml").2
  = options Sample.command
  ∧ is_Some (apps (parse_config elements Sample.init_params Sample.AppConfig_new
                     (Sample.parser_yielding [("first", Sample.complete)])
                     Sample.command Sample.fs "pyproject.toml").2).
Proof.
  split.
  - apply (parse_config_changes_only_apps
             elements Sample.init_params Sample.AppConfig_new
             (Sample.parser_yielding [("second", Sample.incomplete)])
             Sample.command Sample.fs "pyproject.toml").
  - apply (parse_config_changes_only_apps
             elements Sample.init_params Sample.AppConfig_new
             (Sample.parser_yielding [("first", Sample.complete)])
             Sample.command Sample.fs "pyproject.toml").
    vm_compute. reflexivity.
Defined.
